(** * Shallow embedding of torch/_dynamo/variables/dicts.py

    Symbolic variables for mapping-typed host values: [ConstDictVariable],
    [DefaultDictVariable], [DataClassVariable] and [PythonSysModulesVariable].
    Python objects are modelled as values; object identity is the [vid] field,
    allocated from the tracer state's counter whenever an instance is created
    (a [clone], a [MutableLocal()], a constructor call).  Python exceptions are
    the error arm of a state-and-error monad. *)

From Stdlib Require Import List String ZArith Bool Lia.
Import ListNotations.
Open Scope string_scope.
#[local] Set Warnings "-register-all".

(** ** Python values (what [as_python_constant] / [get_key] produce) *)

Inductive PyVal : Type :=
| PNone
| PBool (b : bool)
| PInt (z : Z)
| PStr (s : string)
| PDtype (name : string)          (* a torch.dtype *)
| PTuple (l : list PyVal)
| PDict (l : list (PyVal * PyVal))
| PTensor (id : nat)              (* a torch.Tensor, hashed by identity *)
| PModule (id : nat).             (* a torch.nn.Module, hashed by identity *)

(** [hash(x)] succeeds: dicts are unhashable, tuples are hashable when their
    elements are. *)
Fixpoint hashable (x : PyVal) : bool :=
  match x with
  | PDict _ => false
  | PTuple l => forallb hashable l
  | _ => true
  end.

Definition bool_as_int (b : bool) : Z := if b then 1%Z else 0%Z.

(** Python [==] between two hashable keys ([True == 1]; tensors and modules
    compare by identity, which is what a dict lookup sees for them).  A dict
    never reaches this comparison as a key: hashing it raises first. *)
Fixpoint py_eq (x y : PyVal) : bool :=
  match x, y with
  | PNone, PNone => true
  | PBool a, PBool b => Bool.eqb a b
  | PBool a, PInt z => Z.eqb (bool_as_int a) z
  | PInt z, PBool b => Z.eqb z (bool_as_int b)
  | PInt a, PInt b => Z.eqb a b
  | PStr a, PStr b => String.eqb a b
  | PDtype a, PDtype b => String.eqb a b
  | PTuple l1, PTuple l2 =>
      (fix go (l1 l2 : list PyVal) : bool :=
         match l1, l2 with
         | [], [] => true
         | a :: r1, b :: r2 => py_eq a b && go r1 r2
         | _, _ => false
         end) l1 l2
  | PTensor a, PTensor b => Nat.eqb a b
  | PModule a, PModule b => Nat.eqb a b
  | _, _ => false
  end.

(** [is_valid_global_ref_key] (module level function of dicts.py). *)
Definition is_valid_global_ref_key (key : PyVal) : bool :=
  match key with
  | PTensor _ => true                 (* istensor(key) *)
  | PModule _ | PTuple _ => true      (* isinstance(key, (Module, tuple)) *)
  | _ => false
  end.

(** ** Guards *)

Inductive Guard : Type :=
| GDictContains (key : PyVal) (invert : bool)  (* GuardBuilder.DICT_CONTAINS *)
| GTag (n : nat).                               (* any other guard *)

Definition guard_eqb (g h : Guard) : bool :=
  match g, h with
  | GDictContains k1 i1, GDictContains k2 i2 => py_eq k1 k2 && Bool.eqb i1 i2
  | GTag a, GTag b => Nat.eqb a b
  | _, _ => false
  end.

(** Python [set.union] on guard sets, as lists without new duplicates. *)
Definition guards_union (a b : list Guard) : list Guard :=
  a ++ filter (fun g => negb (existsb (guard_eqb g) a)) b.

(** Python sets of [MutableLocal] identities. *)
Definition ids_union (a b : list nat) : list nat :=
  a ++ filter (fun i => negb (existsb (Nat.eqb i) a)) b.

Definition ids_add (a : list nat) (i : nat) : list nat :=
  if existsb (Nat.eqb i) a then a else a ++ [i].

(** ** Variable trackers *)

Inductive UserCls : Type :=
| UDict | UOrderedDict
| UDataClass (name : string).

Inductive Var : Type :=
| MkVar (vid : nat) (guards : list Guard) (mutable_local : option nat)
        (recursively_contains : list nat) (kind : Kind)
with Kind : Type :=
| KConst (value : PyVal)                       (* ConstantVariable *)
| KTensor (specialized_value : option PyVal)   (* TensorVariable *)
| KNNModule (module_key : string)              (* NNModuleVariable *)
| KDict (user_cls : UserCls) (items : list (PyVal * Var))
                                               (* ConstDictVariable / DataClassVariable *)
| KDefaultDict (items : list (PyVal * Var)) (default_factory : option Var)
                                               (* DefaultDictVariable *)
| KTuple (items : list Var)                    (* TupleVariable *)
| KSet (items : list Var)                      (* SetVariable *)
| KOther (tag : string) (const : option PyVal).
      (* any other tracker: its [as_python_constant], if it has one *)

Definition vid (v : Var) : nat := let 'MkVar i _ _ _ _ := v in i.
Definition guards (v : Var) : list Guard := let 'MkVar _ g _ _ _ := v in g.
Definition mutable_local (v : Var) : option nat := let 'MkVar _ _ m _ _ := v in m.
Definition recursively_contains (v : Var) : list nat :=
  let 'MkVar _ _ _ r _ := v in r.
Definition kind (v : Var) : Kind := let 'MkVar _ _ _ _ k := v in k.

(** [isinstance(v, ConstDictVariable)] and its [items]. *)
Definition dict_items (v : Var) : option (list (PyVal * Var)) :=
  match kind v with
  | KDict _ it | KDefaultDict it _ => Some it
  | _ => None
  end.

Definition with_items (k : Kind) (it : list (PyVal * Var)) : Kind :=
  match k with
  | KDict c _ => KDict c it
  | KDefaultDict _ f => KDefaultDict it f
  | k => k
  end.

(** ** Tracer state and the state-and-error monad *)

Record State : Type := mkState {
  next_id : nat;                       (* identities not yet handed out *)
  live : list Var;                     (* the tracer's live variables *)
  weakrefs : list PyVal;               (* keys registered by store_global_weakref *)
  nn_modules : list (string * PyVal);  (* tx.output.nn_modules *)
  sys_modules : list (PyVal * PyVal)   (* the process-wide sys.modules *)
}.

Inductive Exc : Type :=
| Unsupported (msg : string)   (* exc.unimplemented *)
| KeyErr                       (* KeyError *)
| TypeErr (msg : string)       (* TypeError *)
| IndexErr                     (* IndexError *)
| AssertErr                    (* AssertionError *)
| NotImplErr.                  (* NotImplementedError *)

Inductive Res (A : Type) : Type :=
| ROk (a : A)
| RErr (e : Exc).
Arguments ROk {A} a.
Arguments RErr {A} e.

Definition M (A : Type) : Type := State -> State * Res A.

Definition ret {A} (a : A) : M A := fun s => (s, ROk a).
Definition throw {A} (e : Exc) : M A := fun s => (s, RErr e).
Definition bind {A B} (m : M A) (f : A -> M B) : M B :=
  fun s => match m s with
           | (s', ROk a) => f a s'
           | (s', RErr e) => (s', RErr e)
           end.
Definition lift {A} (r : Res A) : M A := fun s => (s, r).
Definition get_state : M State := fun s => (s, ROk s).
Definition put_state (s : State) : M unit := fun _ => (s, ROk tt).

Notation "x <- m ;; k" := (bind m (fun x => k))
  (at level 61, m at next level, right associativity).
Notation "m ;;; k" := (bind m (fun _ => k))
  (at level 61, right associativity).

Definition assert_ (b : bool) : M unit := if b then ret tt else throw AssertErr.

Definition nth_arg {A} (l : list A) (n : nat) : M A :=
  match nth_error l n with Some a => ret a | None => throw IndexErr end.

Definition isSome {A} (o : option A) : bool :=
  match o with Some _ => true | None => false end.

(** A fresh Python object identity. *)
Definition fresh : M nat :=
  fun s => (mkState (S (next_id s)) (live s) (weakrefs s) (nn_modules s)
                    (sys_modules s), ROk (next_id s)).

(** ** Instances: construction, [clone], guard propagation *)

(** Modelled from the spec: the aggregate-contains set of a variable built
    with [recursively_contains=None] (VariableTracker.__post_init__, base.py,
    not part of this file): "the transitive set of mutable-local identities
    reachable through this variable's values", i.e. each direct child's own
    set plus the child's [mutable_local]. *)
Definition child_contribution (c : Var) : list nat :=
  match mutable_local c with
  | Some m => ids_add (recursively_contains c) m
  | None => recursively_contains c
  end.

Definition aggregate_mutables (k : Kind) : list nat :=
  let children :=
    match k with
    | KDict _ it | KDefaultDict it _ => map snd it
    | KTuple l | KSet l => l
    | _ => []
    end in
  fold_left (fun acc c => ids_union acc (child_contribution c)) children [].

(** Modelled from the spec (VariableTracker.propagate, base.py): the guard
    ledger of a derived value is the union of the guards of its operands. *)
Definition propagate (vs : list Var) : list Guard :=
  fold_left (fun acc v => guards_union acc (guards v)) vs [].

(** [__init__] of a variable tracker of kind [k]: ConstDictVariable.__init__
    additionally takes over the guards of its values
    ([self.guards.update(VariableTracker.propagate(items.values())["guards"])]). *)
Definition init_var (i : nat) (g : list Guard) (ml : option nat)
    (rc : option (list nat)) (k : Kind) : Var :=
  let g' := match k with
            | KDict _ it | KDefaultDict it _ => guards_union g (propagate (map snd it))
            | _ => g
            end in
  let rc' := match rc with Some r => r | None => aggregate_mutables k end in
  MkVar i g' ml rc' k.

(** A constructor call: a new instance with a fresh identity. *)
Definition new_var (g : list Guard) (ml : option nat) (rc : option (list nat))
    (k : Kind) : M Var :=
  i <- fresh ;; ret (init_var i g ml rc k).

(** Modelled from the spec (VariableTracker.clone, base.py):
    a new instance of [self.__class__] built from [self.__dict__] updated
    with the keyword arguments, that keeps
    every field not overridden (the [mutable_local] among them). *)
Definition clone (self : Var) (g : list Guard) (rc : option (list nat))
    (k : Kind) : M Var :=
  new_var g (mutable_local self) rc k.

(** Modelled from the spec (VariableTracker.add_guards / add_options,
    base.py): a copy carrying the union of the guards. *)
Definition add_guards (v : Var) (gs : list Guard) : M Var :=
  clone v (guards_union (guards v) gs) (Some (recursively_contains v)) (kind v).

Definition add_options (v : Var) (gs : list Guard) : M Var := add_guards v gs.

(** [v.add_options(a, b)]: [v.add_options(a).add_options(b)]. *)
Definition add_options2 (v a b : Var) : M Var :=
  v1 <- add_guards v (guards a) ;; add_guards v1 (guards b).

(** ConstDictVariable.modifed *)
Definition modifed (self : Var) (items : list (PyVal * Var))
    (rc : option (list nat)) (options : list Guard) : M Var :=
  clone self options rc (with_items (kind self) items).

(** Modelled from the spec (InstructionTranslator.replace_all, not part of
    this file): every reference to [old] in the tracer's live variables is
    replaced by [new], and [new] is returned. *)
Definition replace_in (old new : Var) (l : list Var) : list Var :=
  map (fun w => if Nat.eqb (vid w) (vid old) then new else w) l.

Definition replace_all (old new : Var) : M Var :=
  fun s => (mkState (next_id s) (replace_in old new (live s)) (weakrefs s)
                    (nn_modules s) (sys_modules s), ROk new).

(** Modelled from the spec (store_global_weakref / store_dict_key of the
    tracer, not part of this file): registers a weak external reference for
    a global-ref-eligible key. *)
Definition store_global_weakref (k : PyVal) : M unit :=
  fun s => (mkState (next_id s) (live s) (weakrefs s ++ [k]) (nn_modules s)
                    (sys_modules s), ROk tt).

(** ** Python constants and key normalisation *)

(** ConstDictVariable.as_python_constant / TupleVariable.as_python_constant /
    ConstantVariable.as_python_constant; [None] is the [NotImplementedError]
    of VariableTracker.as_python_constant. *)
Fixpoint as_python_constant (v : Var) : option PyVal :=
  match v with
  | MkVar _ _ _ _ k =>
      match k with
      | KConst c => Some c
      | KDict _ it | KDefaultDict it _ =>
          option_map PDict
            ((fix go (it : list (PyVal * Var)) : option (list (PyVal * PyVal)) :=
                match it with
                | [] => Some []
                | (key, c) :: r =>
                    match as_python_constant c, go r with
                    | Some a, Some b => Some ((key, a) :: b)
                    | _, _ => None
                    end
                end) it)
      | KTuple l =>
          option_map PTuple
            ((fix go (l : list Var) : option (list PyVal) :=
                match l with
                | [] => Some []
                | c :: r =>
                    match as_python_constant c, go r with
                    | Some a, Some b => Some (a :: b)
                    | _, _ => None
                    end
                end) l)
      | KOther _ c => c
      | KTensor _ | KNNModule _ | KSet _ => None
      end
  end.

(** [x in [list, tuple, dict]] for a default factory: the factory is a
    VariableTracker (or None), and neither compares equal to a Python type
    object. *)
Definition factory_eq_builtin (f : option Var) (builtin : string) : bool := false.

Definition factory_in_builtins (f : option Var) : bool :=
  existsb (factory_eq_builtin f) ["list"; "tuple"; "dict"].

(** VariableTracker.is_python_constant (base.py: [as_python_constant]
    does not raise NotImplementedError), overridden by
    DefaultDictVariable.is_python_constant. *)
Definition is_python_constant (v : Var) : bool :=
  match kind v with
  | KDefaultDict it f =>
      if negb (factory_in_builtins f) && (match it with [] => true | _ => false end)
      then false
      else isSome (as_python_constant v)
  | _ => isSome (as_python_constant v)
  end.

(** ConstDictVariable.is_valid_key *)
Definition is_valid_key (key : Var) : bool :=
  is_python_constant key
  || (match kind key with KTensor (Some _) => true | _ => false end)
  || (match kind key with KConst (PDtype _) => true | _ => false end)
  || (match kind key with KNNModule _ => true | _ => false end).

(** An empty DefaultDictVariable: the case DefaultDictVariable.is_python_constant
    reports as not constant. *)
Definition empty_defaultdict (x : Var) : bool :=
  match kind x with KDefaultDict [] _ => true | _ => false end.

Definition is_nn_module (x : Var) : bool :=
  match kind x with KNNModule _ => true | _ => false end.

Definition is_ok {A} (r : Res A) : bool :=
  match r with ROk _ => true | RErr _ => false end.

Fixpoint assoc_str {A} (k : string) (l : list (string * A)) : option A :=
  match l with
  | [] => None
  | (k', a) :: r => if String.eqb k k' then Some a else assoc_str k r
  end.

(** ConstDictVariable.get_key *)
Definition get_key (s : State) (arg : Var) : Res PyVal :=
  match kind arg with
  | KTensor (Some sv) => ROk sv
  | KNNModule key =>
      match assoc_str key (nn_modules s) with
      | Some m => ROk m
      | None => RErr KeyErr
      end
  | _ =>
      match as_python_constant arg with
      | Some c => ROk c
      | None => RErr NotImplErr
      end
  end.

(** A Python call [ConstDictVariable.get_key(...)]: the classmethod binds
    its positional arguments to [tx] and [arg]; with a single positional
    argument [arg] is missing and the call raises TypeError before the body
    runs. *)
Inductive PyArg : Type :=
| ArgTx (s : State)
| ArgVar (v : Var).

Definition get_key_call (pos : list PyArg) : Res PyVal :=
  match pos with
  | [ArgTx s; ArgVar a] => get_key s a
  | [_] => RErr (TypeErr "get_key() missing 1 required positional argument: 'arg'")
  | _ => RErr (TypeErr "get_key() called with ill-typed arguments")
  end.

(** ConstantVariable.is_literal *)
Fixpoint is_literal (x : PyVal) : bool :=
  match x with
  | PNone | PBool _ | PInt _ | PStr _ => true
  | PTuple l => forallb is_literal l
  | _ => false
  end.

(** ** OrderedDict operations on [items] *)

Fixpoint dict_lookup (k : PyVal) (it : list (PyVal * Var)) : option Var :=
  match it with
  | [] => None
  | (k', v) :: r => if py_eq k k' then Some v else dict_lookup k r
  end.

Definition unhashable : Exc := TypeErr "unhashable type".

(** [k in d] *)
Definition dict_contains (k : PyVal) (it : list (PyVal * Var)) : Res bool :=
  if hashable k then ROk (isSome (dict_lookup k it)) else RErr unhashable.

(** [d[k]] *)
Definition dict_getitem (k : PyVal) (it : list (PyVal * Var)) : Res Var :=
  if hashable k
  then match dict_lookup k it with Some v => ROk v | None => RErr KeyErr end
  else RErr unhashable.

(** [d[k] = x]: an equal key keeps its place (and its key object), a new key
    goes last. *)
Fixpoint dict_set (k : PyVal) (x : Var) (it : list (PyVal * Var))
    : list (PyVal * Var) :=
  match it with
  | [] => [(k, x)]
  | (k', v) :: r => if py_eq k k' then (k', x) :: r else (k', v) :: dict_set k x r
  end.

Definition dict_setitem (k : PyVal) (x : Var) (it : list (PyVal * Var))
    : Res (list (PyVal * Var)) :=
  if hashable k then ROk (dict_set k x it) else RErr unhashable.

Fixpoint dict_remove (k : PyVal) (it : list (PyVal * Var)) : list (PyVal * Var) :=
  match it with
  | [] => []
  | (k', v) :: r => if py_eq k k' then r else (k', v) :: dict_remove k r
  end.

(** [d.pop(k)] *)
Definition dict_pop (k : PyVal) (it : list (PyVal * Var))
    : Res (Var * list (PyVal * Var)) :=
  match dict_getitem k it with
  | ROk v => ROk (v, dict_remove k it)
  | RErr e => RErr e
  end.

(** [d.update(other)] with [other] an existing dict (its keys are hashable). *)
Definition dict_update (it other : list (PyVal * Var)) : list (PyVal * Var) :=
  fold_left (fun acc kv => dict_set (fst kv) (snd kv) acc) other it.

(** ** Method dispatch *)

(** The outcome of [call_method] on a receiver [self]: the tracer state, the
    receiver object after the call (the code assigns to [self.mutable_local]
    in one branch), and the returned variable or the raised exception. *)
Definition CM : Type := State -> State * Var * Res Var.

Definition keep (self : Var) (m : M Var) : CM :=
  fun s => let '(s', r) := m s in (s', self, r).

(** An [elif] whose condition may itself raise. *)
Definition cond (self : Var) (c : State -> Res bool) (t e : CM) : CM :=
  fun s => match c s with
           | RErr ex => (s, self, RErr ex)
           | ROk true => t s
           | ROk false => e s
           end.

Fixpoint mapM {A B} (f : A -> M B) (l : list A) : M (list B) :=
  match l with
  | [] => ret []
  | a :: r => b <- f a ;; bs <- mapM f r ;; ret (b :: bs)
  end.

Definition is_nil {A} (l : list A) : bool :=
  match l with [] => true | _ => false end.

Definition items_of (v : Var) : list (PyVal * Var) :=
  match dict_items v with Some it => it | None => [] end.

Definition arg0_valid (args : list Var) : bool :=
  match args with a :: _ => is_valid_key a | [] => false end.

Definition is_mutable (v : Var) : bool := isSome (mutable_local v).

(** [recursively_contains] of the result of inserting [x]: lines 142-146. *)
Definition rc_with (self x : Var) : list nat :=
  let rc := ids_union (recursively_contains self) (recursively_contains x) in
  match mutable_local x with Some m => ids_add rc m | None => rc end.

(** [self.mutable_local = MutableLocal()] *)
Definition set_mutable_local (v : Var) (m : nat) : Var :=
  let 'MkVar i g _ r k := v in MkVar i g (Some m) r k.

(** Modelled from the spec (VariableTracker.call_method, base.py, which the
    [else] arm defers to): "unsupported names fall through to a generic
    unsupported-operation signal". *)
Definition base_call_method (name : string) : M Var :=
  throw (Unsupported ("call_method " ++ name)).

Section Dispatch.

(** [VariableBuilder(tx, GlobalWeakRefSource(global_key_name(key)))(key)]:
    wrapping a live value into a fresh variable (an external collaborator). *)
Context (var_builder : PyVal -> M Var).
(** [default_factory.call_function(tx, [], {})] (an external collaborator). *)
Context (call_function : Var -> M Var).

(** ConstDictVariable._key_to_var *)
Definition key_to_var (key : PyVal) (options : list Guard) : M Var :=
  if is_valid_global_ref_key key then var_builder key
  else assert_ (is_literal key) ;;; new_var options None None (KConst key).

(** ConstDictVariable.getitem_const *)
Definition getitem_const (self arg : Var) : M Var :=
  s <- get_state ;;
  k <- lift (get_key s arg) ;;
  r <- lift (dict_getitem k (items_of self)) ;;
  add_options2 r self arg.

(** The body shared by both [__setitem__] arms (lines 134-151 and
    208-225): [self] is the receiver as it is at that point. *)
Definition setitem_body (self : Var) (args : list Var)
    (kwargs : list (string * Var)) (options : list Guard) : M Var :=
  assert_ (is_nil kwargs && Nat.eqb (List.length args) 2) ;;;
  a0 <- nth_arg args 0 ;;
  a1 <- nth_arg args 1 ;;
  s <- get_state ;;
  k <- lift (get_key s a0) ;;
  (if is_valid_global_ref_key k then store_global_weakref k else ret tt) ;;;
  newval <- lift (dict_setitem k a1 (items_of self)) ;;
  v2 <- modifed self newval (Some (rc_with self a1)) options ;;
  replace_all self v2.

(** Lines 166-170: [pop] on a mutable variable. *)
Definition pop_body (self a0 : Var) (options : list Guard) : M Var :=
  s <- get_state ;;
  k <- lift (get_key s a0) ;;
  rn <- lift (dict_pop k (items_of self)) ;;
  v2 <- modifed self (snd rn) None options ;;
  replace_all self v2 ;;;
  add_options (fst rn) options.

(** Lines 177-185: [update] on a mutable variable. *)
Definition update_body (self other : Var) (options : list Guard) : M Var :=
  let newval := dict_update (items_of self) (items_of other) in
  let rc := ids_union (recursively_contains self) (recursively_contains other) in
  result <- modifed self newval (Some rc) options ;;
  replace_all self result.

(** Condition of the [pop]/[get] arm of line 152. *)
Definition missing_with_default (self : Var) (name : string) (args : list Var)
    (s : State) : Res bool :=
  match args with
  | a0 :: _ =>
      if (String.eqb name "pop" || String.eqb name "get") && is_valid_key a0 then
        match get_key s a0 with
        | ROk k =>
            match dict_contains k (items_of self) with
            | ROk b => ROk (negb b && Nat.eqb (List.length args) 2)
            | RErr e => RErr e
            end
        | RErr e => RErr e
        end
      else ROk false
  | [] => ROk false
  end.

(** Condition of the [get]/[__getattr__] arm of line 186. *)
Definition present_for_get (self : Var) (name : string) (args : list Var)
    (s : State) : Res bool :=
  match args with
  | a0 :: _ =>
      if (String.eqb name "get" || String.eqb name "__getattr__") && is_valid_key a0
      then match get_key s a0 with
           | ROk k => dict_contains k (items_of self)
           | RErr e => RErr e
           end
      else ROk false
  | [] => ROk false
  end.

Definition pure (b : bool) : State -> Res bool := fun _ => ROk b.

(** ConstDictVariable.call_method *)
Definition cd_call_method (self : Var) (name : string) (args : list Var)
    (kwargs : list (string * Var)) : CM :=
  let options := propagate (self :: args ++ map snd kwargs) in
  let val := items_of self in
  if String.eqb name "__getitem__" then
    keep self (a0 <- nth_arg args 0 ;; getitem_const self a0)
  else if String.eqb name "items" then
    keep self (
      assert_ (is_nil args && is_nil kwargs) ;;;
      pairs <- mapM (fun kv => kv0 <- key_to_var (fst kv) options ;;
                               new_var options None None (KTuple [kv0; snd kv])) val ;;
      new_var options None None (KTuple pairs))
  else if String.eqb name "keys" then
    keep self (
      assert_ (is_nil args && is_nil kwargs) ;;;
      ks <- mapM (fun kv => key_to_var (fst kv) options) val ;;
      m <- fresh ;;
      new_var options (Some m) None (KSet ks))
  else if String.eqb name "values" then
    keep self (
      assert_ (is_nil args && is_nil kwargs) ;;;
      new_var options None None (KTuple (map snd val)))
  else if String.eqb name "__len__" then
    keep self (
      assert_ (is_nil args && is_nil kwargs) ;;;
      new_var options None None (KConst (PInt (Z.of_nat (List.length val)))))
  else if String.eqb name "__setitem__" && arg0_valid args && is_mutable self then
    keep self (setitem_body self args kwargs options)
  else cond self (missing_with_default self name args)
    (keep self (a1 <- nth_arg args 1 ;; add_options a1 options))
  (cond self (pure (String.eqb name "pop" && arg0_valid args && is_mutable self))
    (keep self (a0 <- nth_arg args 0 ;; pop_body self a0 options))
  (cond self (pure (String.eqb name "update"
                    && (match args with a0 :: _ => isSome (dict_items a0) | [] => false end)
                    && is_mutable self))
    (keep self (a0 <- nth_arg args 0 ;; update_body self a0 options))
  (cond self (present_for_get self name args)
    (keep self (a0 <- nth_arg args 0 ;; s <- get_state ;; k <- lift (get_key s a0) ;;
                r <- lift (dict_getitem k val) ;; add_options r options))
  (cond self (pure (String.eqb name "__contains__" && arg0_valid args))
    (keep self (a0 <- nth_arg args 0 ;;
                (* ConstDictVariable.get_key(args[0]): [tx] is not passed *)
                k <- lift (get_key_call [ArgVar a0]) ;;
                b <- lift (dict_contains k val) ;;
                new_var options None None (KConst (PBool b))))
  (cond self (pure (String.eqb name "__contains__"))
    (keep self (a0 <- nth_arg args 0 ;; throw (Unsupported "NYI - __contains__")))
  (cond self (pure (String.eqb name "__setitem__" && arg0_valid args))
    (fun s =>
       (* self.mutable_local = MutableLocal(), then the arm of lines 208-225 *)
       let m := next_id s in
       let s1 := mkState (S m) (live s) (weakrefs s) (nn_modules s) (sys_modules s) in
       let self' := set_mutable_local self m in
       let '(s2, r) := setitem_body self' args kwargs options s1 in
       (s2, self', r))
    (keep self (base_call_method name)))))))).

(** DefaultDictVariable.call_method *)
Definition dd_call_method (self : Var) (name : string) (args : list Var)
    (kwargs : list (string * Var)) : CM :=
  let options := propagate (self :: args ++ map snd kwargs) in
  if String.eqb name "__getitem__" then
    keep self (
      a0 <- nth_arg args 0 ;;
      s <- get_state ;;
      k <- lift (get_key s a0) ;;
      present <- lift (dict_contains k (items_of self)) ;;
      if present then getitem_const self a0
      else match kind self with
           | KDefaultDict _ (Some factory) =>
               (if is_valid_global_ref_key k then store_global_weakref k else ret tt) ;;;
               default_var <- call_function factory ;;
               new_val <- lift (dict_setitem k default_var (items_of self)) ;;
               v2 <- modifed self new_val (Some (rc_with self default_var)) options ;;
               replace_all self v2 ;;;
               ret default_var
           | _ => throw KeyErr  (* raise KeyError(f"{k}") *)
           end)
  else cd_call_method self name args kwargs.

End Dispatch.

(** ** PythonSysModulesVariable *)

(** [k in sys.modules] *)
Definition sys_modules_contains (s : State) (k : PyVal) : Res bool :=
  if hashable k then ROk (existsb (fun kv => py_eq k (fst kv)) (sys_modules s))
  else RErr unhashable.

(** PythonSysModulesVariable._contains_helper.  [make_guard] builds a
    DICT_CONTAINS guard on the variable's source; it is the guard value
    itself here. *)
Definition contains_helper (self key : Var) : M (PyVal * bool * list Guard) :=
  k <- lift (get_key_call [ArgVar key]) ;;  (* ConstDictVariable.get_key(key) *)
  s <- get_state ;;
  has_key <- lift (sys_modules_contains s k) ;;
  let guard := GDictContains k (negb has_key) in
  ret (k, has_key, guards_union (guards self) [guard]).

(** PythonSysModulesVariable.call_contains *)
Definition call_contains (self key : Var) : M Var :=
  khg <- contains_helper self key ;;
  let '(_, has_key, gs) := khg in
  new_var gs None None (KConst (PBool has_key)).

Section SysModules.

Context (var_builder : PyVal -> M Var).

Definition sys_modules_getitem (k : PyVal) : M PyVal :=
  s <- get_state ;;
  if hashable k then
    match find (fun kv => py_eq k (fst kv)) (sys_modules s) with
    | Some kv => ret (snd kv)
    | None => throw KeyErr
    end
  else throw unhashable.

(** PythonSysModulesVariable.call_get *)
Definition call_get (self key : Var) (default : option Var) : M Var :=
  khg <- contains_helper self key ;;
  let '(k, has_key, gs) := khg in
  if has_key then
    m <- sys_modules_getitem k ;;
    w <- var_builder m ;;
    add_guards w gs
  else match default with
       | Some d => add_guards d gs
       | None => new_var gs None None (KConst PNone)
       end.

End SysModules.

(** ** DataClassVariable.create *)

(** A value of [bound.arguments] after [bind] and [apply_defaults]: a
    variable passed by the caller, or a literal default of the schema. *)
Inductive BoundVal : Type :=
| BVar (v : Var)
| BLit (x : PyVal).

Definition same_set (a b : list string) : bool :=
  forallb (fun x => existsb (String.eqb x) b) a
  && forallb (fun x => existsb (String.eqb x) a) b.

Definition is_tensor_variable (v : Var) : bool :=
  match kind v with KTensor _ => true | _ => false end.

(** The loop of lines 380-389. *)
Fixpoint collect_items (include_none : bool) (keys : list string)
    (bound : list (string * BoundVal)) (items : list (PyVal * Var))
    : M (list (PyVal * Var)) :=
  match keys with
  | [] => ret items
  | key :: rest =>
      match assoc_str key bound with
      | None => throw KeyErr
      | Some (BVar v) =>
          collect_items include_none rest bound (dict_set (PStr key) v items)
      | Some (BLit x) =>
          if include_none then
            assert_ (is_literal x) ;;;
            c <- new_var [] None None (KConst x) ;;
            collect_items include_none rest bound (dict_set (PStr key) c items)
          else
            assert_ (match x with PNone => true | _ => false end) ;;;
            collect_items include_none rest bound items
      end
  end.

(** DataClassVariable.create: [keys] are the names of
    [dataclasses.fields(user_cls)], [bound] is
    [inspect.signature(user_cls).bind] applied to the call's arguments, after
    [apply_defaults()], and [include_none] is the class attribute
    ([False] for DataClassVariable). *)
Definition dc_create (include_none : bool) (cls_name : string) (keys : list string)
    (bound : list (string * BoundVal)) (options : list Guard) : M Var :=
  assert_ (same_set (map fst bound) keys) ;;;
  items <- collect_items include_none keys bound [] ;;
  (if Nat.eqb (List.length items) 1 then
     key0 <- nth_arg keys 0 ;;
     first <- lift (dict_getitem (PStr key0) items) ;;
     if is_tensor_variable first then ret tt
     else throw (Unsupported "DataClassVariable iterator constructor")
   else ret tt) ;;;
  new_var options None None (KDict (UDataClass cls_name) items).

(** ** Further methods of the mapping variables *)

(** Keys of an OrderedDict are pairwise different under [==]. *)
Fixpoint keys_distinct (it : list (PyVal * Var)) : bool :=
  match it with
  | [] => true
  | (k, _) :: r => negb (isSome (dict_lookup k r)) && keys_distinct r
  end.

(** [call_method] seen from a caller that only keeps the returned value. *)
Definition result_of (m : CM) : M Var :=
  fun s => let '(s', _, r) := m s in (s', r).

Section MoreMethods.

Context (var_builder : PyVal -> M Var).

(** ConstDictVariable.unpack_var_sequence *)
Definition unpack_var_sequence (self : Var) : M (list Var) :=
  let options := propagate [self] in
  mapM (fun kv => key_to_var var_builder (fst kv) options) (items_of self).

(** [TupleVariable.call_method] (an external collaborator, used by
    DataClassVariable for a non-string index). *)
Context (tuple_call_method : Var -> string -> list Var -> list (string * Var) -> M Var).

(** The [to_tuple] arm of DataClassVariable.call_method. *)
Definition dcv_to_tuple (self : Var) (args : list Var) (kwargs : list (string * Var))
    : M Var :=
  let options := propagate (self :: args ++ map snd kwargs) in
  assert_ (is_nil args && is_nil kwargs) ;;;
  new_var options None None (KTuple (map snd (items_of self))).

(** [arg.as_python_constant()] *)
Definition as_python_constant_m (v : Var) : M PyVal :=
  lift (match as_python_constant v with Some c => ROk c | None => RErr NotImplErr end).

(** DataClassVariable.call_method *)
Definition dcv_call_method (self : Var) (name : string) (args : list Var)
    (kwargs : list (string * Var)) : CM :=
  let options := propagate (self :: args ++ map snd kwargs) in
  if String.eqb name "__getitem__" then
    keep self (
      assert_ (is_nil kwargs && Nat.eqb (List.length args) 1) ;;;
      a0 <- nth_arg args 0 ;;
      index <- as_python_constant_m a0 ;;
      match index with
      | PStr key =>
          r <- lift (dict_getitem (PStr key) (items_of self)) ;;
          add_options r options
      | _ =>
          t <- dcv_to_tuple self [] [] ;;
          r <- tuple_call_method t "__getitem__" args kwargs ;;
          add_options r options
      end)
  else if String.eqb name "to_tuple" then
    keep self (dcv_to_tuple self args kwargs)
  else if String.eqb name "__setattr__" then
    cd_call_method var_builder self "__setitem__" args kwargs
  else cd_call_method var_builder self name args kwargs.

(** [VariableTracker.var_getattr] of the base class (an external
    collaborator): its value is not returned by DataClassVariable.var_getattr. *)
Context (base_var_getattr : Var -> string -> M Var).

(** DataClassVariable.var_getattr.  [defaults] lists
    [(f.name, f.default)] for [dataclasses.fields(self.user_cls)], with
    [None] for [dataclasses.MISSING] (not a literal); the result [None] is the
    Python [None] of the path that ends without a [return]. *)
Definition dcv_var_getattr (include_none : bool) (defaults : list (string * option PyVal))
    (self : Var) (name : string) : M (option Var) :=
  if isSome (dict_lookup (PStr name) (items_of self)) then
    c <- new_var [] None None (KConst (PStr name)) ;;
    r <- result_of (dcv_call_method self "__getitem__" [c] []) ;;
    ret (Some r)
  else if negb include_none && isSome (assoc_str name defaults) then
    d <- lift (match assoc_str name defaults with
               | Some (Some x) => if is_literal x then ROk x else RErr AssertErr
               | _ => RErr AssertErr
               end) ;;
    c <- new_var [] None None (KConst d) ;;
    r <- add_options c (guards self) ;;
    ret (Some r)
  else
    base_var_getattr self name ;;; ret None.

End MoreMethods.

(** ** DataClassVariable.wrap *)

Section Wrap.

(** [builder.__class__(tx=builder.tx, source=AttrSource(builder.source, key))(val)]
    (an external collaborator). *)
Context (wrap_attr : string -> PyVal -> M Var).

(** The loop of lines 403-413: [attrs] gives [getattr(obj, key)] for the
    fields [obj] has ([hasattr]); returns the items and the excluded
    variables. *)
Fixpoint wrap_fields (include_none : bool) (keys : list string)
    (attrs : list (string * PyVal)) (items : list (PyVal * Var)) (excluded : list Var)
    : M (list (PyVal * Var) * list Var) :=
  match keys with
  | [] => ret (items, excluded)
  | key :: rest =>
      match assoc_str key attrs with
      | None => wrap_fields include_none rest attrs items excluded
      | Some val =>
          var <- wrap_attr key val ;;
          if negb (match val with PNone => true | _ => false end) || include_none
          then wrap_fields include_none rest attrs (dict_set (PStr key) var items) excluded
          else wrap_fields include_none rest attrs items (excluded ++ [var])
      end
  end.

(** DataClassVariable.wrap *)
Definition dcv_wrap (include_none : bool) (cls_name : string) (keys : list string)
    (attrs : list (string * PyVal)) : M Var :=
  ie <- wrap_fields include_none keys attrs [] [] ;;
  let '(items, excluded) := ie in
  new_var (propagate (excluded ++ map snd items)) None None
          (KDict (UDataClass cls_name) items).

End Wrap.

(** ** CustomizedDictVariable.create *)

(** [raw_items] of lines 514-526: [is_dataclass] is
    [dataclasses.is_dataclass(user_cls)] and [bound] the arguments
    [inspect.signature(user_cls).bind] gives after [apply_defaults()]. *)
Definition cdv_raw_items (args : list Var) (kwargs : list (string * Var))
    (is_dataclass : bool) (bound : list (string * BoundVal))
    : Res (list (PyVal * BoundVal)) :=
  if is_nil args && is_nil kwargs then ROk []
  else if is_dataclass then ROk (map (fun kv => (PStr (fst kv), snd kv)) bound)
  else match args, kwargs with
       | [a0], [] =>
           match dict_items a0 with
           | Some it => ROk (map (fun kv => (fst kv, BVar (snd kv))) it)
           | None => RErr (Unsupported "custome dict init with args/kwargs unimplemented")
           end
       | _, _ => RErr (Unsupported "custome dict init with args/kwargs unimplemented")
       end.

(** The loop of lines 529-536. *)
Fixpoint cdv_items (raw : list (PyVal * BoundVal)) (items : list (PyVal * Var))
    : M (list (PyVal * Var)) :=
  match raw with
  | [] => ret items
  | (key, BVar v) :: rest => cdv_items rest (dict_set key v items)
  | (key, BLit x) :: rest =>
      if is_literal x then
        c <- new_var [] None None (KConst x) ;;
        cdv_items rest (dict_set key c items)
      else throw (Unsupported "expect VariableTracker or ConstantVariable.is_literal")
  end.

(** The assertions of the loop of lines 507-512: [cls_attrs] lists the
    attributes [user_cls] has ([hasattr]), each with whether it is
    [callable]; the first of the four names bound to a non-callable fails
    [assert callable(fn)]. *)
Definition cdv_attrs_callable (cls_attrs : list (string * bool)) : bool :=
  forallb (fun attr_name => match assoc_str attr_name cls_attrs with
                            | Some false => false
                            | _ => true
                            end)
          ["__init__"; "__post_init__"; "__setattr__"; "__setitem__"].

(** CustomizedDictVariable.create (the [skip_code] calls of its first loop
    only mark code objects for the frame evaluator and are not modelled). *)
Definition cdv_create (user_cls : UserCls) (cls_attrs : list (string * bool))
    (args : list Var) (kwargs : list (string * Var))
    (is_dataclass : bool) (bound : list (string * BoundVal)) (options : list Guard)
    : M Var :=
  assert_ (cdv_attrs_callable cls_attrs) ;;;
  raw <- lift (cdv_raw_items args kwargs is_dataclass bound) ;;
  items <- cdv_items raw [] ;;
  new_var options None None (KDict user_cls items).

(** ** PythonSysModulesVariable.call_method *)

(** Python's binding of [*args, **kwargs] to the parameters [params] (name,
    has a default) of a method: one entry per parameter, [None] for a
    parameter left to its default. *)
Fixpoint bind_params (params : list (string * bool)) (pos : list Var)
    (kw : list (string * Var)) : Res (list (option Var)) :=
  match params with
  | [] =>
      match pos, kw with
      | [], [] => ROk []
      | _ :: _, _ => RErr (TypeErr "takes too many positional arguments")
      | [], _ :: _ => RErr (TypeErr "got an unexpected keyword argument")
      end
  | (p, has_default) :: ps =>
      match pos with
      | a :: pos' =>
          if isSome (assoc_str p kw) then RErr (TypeErr "got multiple values for argument")
          else match bind_params ps pos' kw with
               | ROk r => ROk (Some a :: r)
               | RErr e => RErr e
               end
      | [] =>
          let rest_kw := filter (fun kv => negb (String.eqb p (fst kv))) kw in
          match assoc_str p kw with
          | Some a =>
              match bind_params ps [] rest_kw with
              | ROk r => ROk (Some a :: r)
              | RErr e => RErr e
              end
          | None =>
              if has_default then
                match bind_params ps [] kw with
                | ROk r => ROk (None :: r)
                | RErr e => RErr e
                end
              else RErr (TypeErr "missing a required argument")
          end
      end
  end.

Section SysModulesDispatch.

Context (var_builder : PyVal -> M Var).
(** The fallback [VariableBuilder(tx, self.source, **options)(sys.modules)
    .call_method(tx, name, args, kwargs)] (an external collaborator). *)
Context (real_dict_call_method : list Guard -> string -> list Var -> list (string * Var) -> M Var).

(** PythonSysModulesVariable.call_getitem *)
Definition call_getitem (self key : Var) : M Var :=
  khg <- contains_helper self key ;;
  let '(k, _, gs) := khg in
  m <- sys_modules_getitem k ;;
  w <- var_builder m ;;
  add_guards w gs.

(** PythonSysModulesVariable.call_method *)
Definition sm_call_method (self : Var) (name : string) (args : list Var)
    (kwargs : list (string * Var)) : M Var :=
  if String.eqb name "__getitem__" then
    b <- lift (bind_params [("key", false)] args kwargs) ;;
    match b with
    | [Some key] => call_getitem self key
    | _ => throw (TypeErr "unreachable: one entry per parameter")
    end
  else if String.eqb name "get" then
    b <- lift (bind_params [("key", false); ("default", true)] args kwargs) ;;
    match b with
    | [Some key; d] => call_get var_builder self key d
    | _ => throw (TypeErr "unreachable: one entry per parameter")
    end
  else if String.eqb name "__contains__" then
    b <- lift (bind_params [("key", false)] args kwargs) ;;
    match b with
    | [Some key] => call_contains self key
    | _ => throw (TypeErr "unreachable: one entry per parameter")
    end
  else
    real_dict_call_method (propagate (self :: args ++ map snd kwargs)) name args kwargs.

End SysModulesDispatch.

(** ** Auxiliary definitions of the further properties *)

Definition literal_key (kv : PyVal * Var) : bool :=
  negb (is_valid_global_ref_key (fst kv)) && is_literal (fst kv).

Fixpoint const_key_vars (n : nat) (options : list Guard) (it : list (PyVal * Var))
    : list Var :=
  match it with
  | [] => []
  | (k, _) :: r => init_var n options None None (KConst k) :: const_key_vars (S n) options r
  end.

(** Names pairwise different (the fields of a dataclass). *)
Fixpoint distinct_names (l : list string) : bool :=
  match l with
  | [] => true
  | a :: r => negb (existsb (String.eqb a) r) && distinct_names r
  end.

(** The fields bound to a variable, in schema order. *)
Fixpoint var_fields (keys : list string) (bound : list (string * BoundVal))
    : list (PyVal * Var) :=
  match keys with
  | [] => []
  | key :: rest =>
      match assoc_str key bound with
      | Some (BVar v) => (PStr key, v) :: var_fields rest bound
      | _ => var_fields rest bound
      end
  end.

Definition var_or_none (bound : list (string * BoundVal)) (key : string) : bool :=
  match assoc_str key bound with
  | Some (BVar _) | Some (BLit PNone) => true
  | _ => false
  end.

Definition kept_field (include_none : bool) (attrs : list (string * PyVal)) (key : string)
    : bool :=
  match assoc_str key attrs with
  | Some PNone => include_none
  | Some _ => true
  | None => false
  end.

(** An argument of [bound] the loop of CustomizedDictVariable.create accepts:
    a variable, or a literal. *)
Definition bound_ok (kv : string * BoundVal) : bool :=
  match snd kv with
  | BVar _ => true
  | BLit y => is_literal y
  end.

(** ** Sample inputs *)

Definition ex_state : State := mkState 100 [] [] [] [(PStr "alpha", PModule 7)].

(** VariableBuilder on a literal: a fresh ConstantVariable. *)
Definition ex_builder : PyVal -> M Var := fun x => new_var [] None None (KConst x).

Definition ex_key_a : Var := MkVar 1 [GTag 1] None [] (KConst (PStr "a")).
Definition ex_key_z : Var := MkVar 11 [GTag 11] None [] (KConst (PStr "z")).
Definition ex_one : Var := MkVar 2 [GTag 2] None [] (KConst (PInt 1)).
Definition ex_seven : Var := MkVar 12 [GTag 12] None [] (KConst (PInt 7)).
(** A mutable child (a ListVariable with its MutableLocal 40). *)
Definition ex_list : Var := MkVar 4 [GTag 4] (Some 40) [] (KOther "ListVariable" None).

(** [{"b": 1}] as a mutable and as an immutable ConstDictVariable. *)
Definition ex_dict_mut : Var := MkVar 3 [GTag 3] (Some 30) [] (KDict UDict [(PStr "b", ex_one)]).
Definition ex_dict_imm : Var := MkVar 5 [GTag 5] None [] (KDict UDict [(PStr "b", ex_one)]).
(** [{"a": [..]}]: a mutable dict holding a mutable list. *)
Definition ex_dict_nested : Var :=
  MkVar 6 [GTag 6] (Some 60) [40] (KDict UDict [(PStr "a", ex_list)]).

Definition ex_state_nested : State := mkState 100 [ex_dict_nested] [] [] [].

(** [collections.defaultdict(list)] with no items, and one without factory. *)
Definition ex_factory : Var := MkVar 9 [] None [] (KOther "BuiltinVariable(list)" None).
Definition ex_defaultdict : Var := MkVar 8 [GTag 8] (Some 80) [] (KDefaultDict [] (Some ex_factory)).
Definition ex_defaultdict_nofactory : Var :=
  MkVar 10 [GTag 10] (Some 81) [] (KDefaultDict [] None).
(** [BuiltinVariable(list).call_function(tx, [], {})]: a fresh mutable list. *)
Definition ex_call_function : Var -> M Var :=
  fun _ => m <- fresh ;; new_var [] (Some m) None (KOther "ListVariable" None).

Definition ex_state_dd : State := mkState 100 [ex_defaultdict] [] [] [].

(** The PythonSysModulesVariable and two keys. *)
Definition ex_sys_modules_var : Var := MkVar 20 [GTag 20] None [] (KOther "PythonSysModulesVariable" None).
Definition ex_key_alpha : Var := MkVar 21 [] None [] (KConst (PStr "alpha")).
Definition ex_key_beta : Var := MkVar 22 [] None [] (KConst (PStr "beta")).

Definition ex_key_b : Var := MkVar 13 [GTag 13] None [] (KConst (PStr "b")).

(** * Properties *)

(** ** Python values *)

(** Induction on [PyVal] through the nested tuples and dicts. *)
Definition PyVal_deep_ind (P : PyVal -> Prop)
    (HNone : P PNone) (HBool : forall b, P (PBool b)) (HInt : forall z, P (PInt z))
    (HStr : forall s, P (PStr s)) (HDtype : forall s, P (PDtype s))
    (HTuple : forall l, Forall P l -> P (PTuple l))
    (HDict : forall l, Forall (fun kv => P (fst kv) /\ P (snd kv)) l -> P (PDict l))
    (HTensor : forall n, P (PTensor n)) (HModule : forall n, P (PModule n))
    : forall x, P x :=
  fix F (x : PyVal) : P x :=
    match x with
    | PNone => HNone
    | PBool b => HBool b
    | PInt z => HInt z
    | PStr s => HStr s
    | PDtype s => HDtype s
    | PTuple l =>
        HTuple l ((fix G (l : list PyVal) : Forall P l :=
                     match l with
                     | [] => Forall_nil P
                     | a :: r => Forall_cons a (F a) (G r)
                     end) l)
    | PDict l =>
        HDict l ((fix G (l : list (PyVal * PyVal))
                    : Forall (fun kv => P (fst kv) /\ P (snd kv)) l :=
                     match l with
                     | [] => Forall_nil _
                     | (a, b) :: r => Forall_cons (a, b) (conj (F a) (F b)) (G r)
                     end) l)
    | PTensor n => HTensor n
    | PModule n => HModule n
    end.

Lemma py_eq_refl : forall x, hashable x = true -> py_eq x x = true.
Proof.
  induction x using PyVal_deep_ind; simpl; intro Hh; try discriminate;
    try solve [reflexivity | apply Bool.eqb_reflx | apply Z.eqb_refl
              | apply String.eqb_refl | apply Nat.eqb_refl].
  induction H as [|a l Ha Hl IH]; [reflexivity|].
  simpl in Hh. apply andb_true_iff in Hh as [Ha' Hl'].
  simpl. rewrite (Ha Ha'). simpl. apply IH, Hl'.
Qed.

(** ** OrderedDict operations *)

Lemma dict_lookup_set : forall k x it,
  py_eq k k = true -> dict_lookup k (dict_set k x it) = Some x.
Proof.
  intros k x it Hk. induction it as [|[k' v] r IH]; simpl.
  - rewrite Hk. reflexivity.
  - destruct (py_eq k k') eqn:E; simpl; rewrite E; [reflexivity | exact IH].
Qed.

Lemma dict_set_absent : forall k x it,
  dict_lookup k it = None -> dict_set k x it = (it ++ [(k, x)])%list.
Proof.
  intros k x it. induction it as [|[k' v] r IH]; simpl; [reflexivity|].
  destruct (py_eq k k'); [discriminate|]. intro H. rewrite (IH H). reflexivity.
Qed.

(** ** Fresh identities *)

Lemma fresh_spec : forall s,
  fresh s = (mkState (S (next_id s)) (live s) (weakrefs s) (nn_modules s)
                     (sys_modules s), ROk (next_id s)).
Proof. reflexivity. Qed.

Lemma new_var_spec : forall g ml rc k s,
  new_var g ml rc k s
  = (mkState (S (next_id s)) (live s) (weakrefs s) (nn_modules s) (sys_modules s),
     ROk (init_var (next_id s) g ml rc k)).
Proof. reflexivity. Qed.

(** ** Base mapping variable: evaluation of the mutating arms *)

Lemma get_key_nn : forall s s' a,
  nn_modules s' = nn_modules s -> get_key s' a = get_key s a.
Proof. intros s s' a H. unfold get_key. rewrite H. reflexivity. Qed.

Definition weakrefs_after (s : State) (nk : PyVal) : list PyVal :=
  if is_valid_global_ref_key nk then (weakrefs s ++ [nk])%list else weakrefs s.

Lemma setitem_mutable_eval :
  forall var_builder s i g m rc c it k x nk,
    is_valid_key k = true -> get_key s k = ROk nk -> hashable nk = true ->
    let v := MkVar i g (Some m) rc (KDict c it) in
    let v2 := init_var (next_id s) (propagate [v; k; x]) (Some m)
                (Some (rc_with v x)) (KDict c (dict_set nk x it)) in
    cd_call_method var_builder v "__setitem__" [k; x] [] s
    = (mkState (S (next_id s)) (replace_in v v2 (live s)) (weakrefs_after s nk)
               (nn_modules s) (sys_modules s), v, ROk v2).
Proof.
  intros var_builder s i g m rc c it k x nk Hvalid Hget Hhash v v2.
  subst v v2. unfold cd_call_method.
  cbn -[get_key is_valid_key propagate]. rewrite Hvalid.
  unfold keep, setitem_body. cbn -[get_key propagate]. rewrite Hget.
  unfold dict_setitem. rewrite Hhash. unfold weakrefs_after.
  destruct (is_valid_global_ref_key nk); reflexivity.
Qed.

Lemma setitem_immutable_eval :
  forall var_builder s i g rc c it k x nk,
    is_valid_key k = true -> get_key s k = ROk nk -> hashable nk = true ->
    let v := MkVar i g None rc (KDict c it) in
    let v' := MkVar i g (Some (next_id s)) rc (KDict c it) in
    let v2 := init_var (S (next_id s)) (propagate [v; k; x]) (Some (next_id s))
                (Some (rc_with v x)) (KDict c (dict_set nk x it)) in
    cd_call_method var_builder v "__setitem__" [k; x] [] s
    = (mkState (S (S (next_id s))) (replace_in v' v2 (live s)) (weakrefs_after s nk)
               (nn_modules s) (sys_modules s), v', ROk v2).
Proof.
  intros var_builder s i g rc c it k x nk Hvalid Hget Hhash v v' v2.
  subst v v' v2. unfold cd_call_method.
  cbn -[get_key is_valid_key propagate]. rewrite Hvalid.
  unfold cond, missing_with_default, present_for_get, pure.
  cbn -[get_key is_valid_key propagate].
  rewrite get_key_nn with (s := s) by reflexivity. rewrite Hget.
  unfold dict_setitem. rewrite Hhash. unfold weakrefs_after.
  destruct (is_valid_global_ref_key nk); reflexivity.
Qed.

(** Symbolic evaluation through the [elif] chain: the key is valid and
    normalises to [nk]. *)
Ltac run_chain Hvalid Hget s :=
  repeat (cbn -[get_key is_valid_key propagate dict_lookup];
          try rewrite Hvalid;
          try (rewrite get_key_nn with (s := s) by reflexivity);
          try rewrite Hget).

Lemma pop_present_mutable_eval :
  forall var_builder s i g m rc c it k rest nk y,
    is_valid_key k = true -> get_key s k = ROk nk -> hashable nk = true ->
    dict_lookup nk it = Some y ->
    let v := MkVar i g (Some m) rc (KDict c it) in
    let opts := propagate (v :: k :: rest) in
    let v2 := init_var (next_id s) opts (Some m) None (KDict c (dict_remove nk it)) in
    cd_call_method var_builder v "pop" (k :: rest) [] s
    = (mkState (S (S (next_id s))) (replace_in v v2 (live s)) (weakrefs s)
               (nn_modules s) (sys_modules s), v,
       ROk (init_var (S (next_id s)) (guards_union (guards y) opts) (mutable_local y)
                     (Some (recursively_contains y)) (kind y))).
Proof.
  intros var_builder s i g m rc c it k rest nk y Hvalid Hget Hhash Hy v opts v2.
  subst v opts v2. unfold cd_call_method.
  unfold cond, missing_with_default, present_for_get, pure, keep, pop_body,
    dict_contains, dict_pop, dict_getitem.
  run_chain Hvalid Hget s. rewrite Hhash, Hy. cbn -[propagate dict_lookup].
  rewrite app_nil_r. reflexivity.
Qed.

Lemma pop_present_immutable_eval :
  forall var_builder s i g rc c it k rest nk y,
    is_valid_key k = true -> get_key s k = ROk nk -> hashable nk = true ->
    dict_lookup nk it = Some y ->
    let v := MkVar i g None rc (KDict c it) in
    cd_call_method var_builder v "pop" (k :: rest) [] s
    = (s, v, RErr (Unsupported "call_method pop")).
Proof.
  intros var_builder s i g rc c it k rest nk y Hvalid Hget Hhash Hy v.
  subst v. unfold cd_call_method.
  unfold cond, missing_with_default, present_for_get, pure, keep,
    dict_contains, dict_pop, dict_getitem.
  run_chain Hvalid Hget s. rewrite Hhash, Hy. cbn -[propagate dict_lookup].
  rewrite ?andb_false_r. reflexivity.
Qed.

Lemma update_immutable_eval :
  forall var_builder s i g rc c it args,
    let v := MkVar i g None rc (KDict c it) in
    cd_call_method var_builder v "update" args [] s
    = (s, v, RErr (Unsupported "call_method update")).
Proof.
  intros var_builder s i g rc c it args v. subst v. unfold cd_call_method.
  unfold cond, missing_with_default, present_for_get, pure, keep.
  destruct args as [|a0 rest]; cbn -[get_key is_valid_key propagate];
    rewrite ?andb_false_r; reflexivity.
Qed.

Lemma update_mutable_eval :
  forall var_builder s i g m rc c it o rest ot,
    dict_items o = Some ot ->
    let v := MkVar i g (Some m) rc (KDict c it) in
    let opts := propagate (v :: o :: rest) in
    let v2 := init_var (next_id s) opts (Some m)
                (Some (ids_union rc (recursively_contains o)))
                (KDict c (dict_update it ot)) in
    cd_call_method var_builder v "update" (o :: rest) [] s
    = (mkState (S (next_id s)) (replace_in v v2 (live s)) (weakrefs s)
               (nn_modules s) (sys_modules s), v, ROk v2).
Proof.
  intros var_builder s i g m rc c it o rest ot Ho v opts v2.
  subst v opts v2. unfold cd_call_method.
  unfold cond, missing_with_default, present_for_get, pure, keep, update_body.
  cbn -[get_key is_valid_key propagate dict_update]. rewrite Ho.
  cbn -[get_key is_valid_key propagate dict_update].
  assert (Hio : items_of o = ot) by (unfold items_of; rewrite Ho; reflexivity).
  rewrite Hio, app_nil_r. reflexivity.
Qed.

(** ** Default-factory mapping variable: evaluation of [__getitem__] *)

Definition store_state (s : State) (nk : PyVal) : State :=
  mkState (next_id s) (live s) (weakrefs_after s nk) (nn_modules s) (sys_modules s).

Lemma dd_getitem_miss_eval :
  forall var_builder call_function s i g ml rc it f k rest nk s2 dv,
    get_key s k = ROk nk -> hashable nk = true -> dict_lookup nk it = None ->
    call_function f (store_state s nk) = (s2, ROk dv) ->
    let v := MkVar i g ml rc (KDefaultDict it (Some f)) in
    let v2 := init_var (next_id s2) (propagate (v :: k :: rest)) ml
                (Some (rc_with v dv)) (KDefaultDict (dict_set nk dv it) (Some f)) in
    dd_call_method var_builder call_function v "__getitem__" (k :: rest) [] s
    = (mkState (S (next_id s2)) (replace_in v v2 (live s2)) (weakrefs s2)
               (nn_modules s2) (sys_modules s2), v, ROk dv).
Proof.
  intros var_builder call_function s i g ml rc it f k rest nk s2 dv Hget Hhash Hnone Hcall
    v v2. subst v v2. destruct s as [n lv wr nn sm].
  unfold dd_call_method, keep. cbn -[get_key propagate dict_lookup dict_set].
  rewrite Hget. unfold dict_contains. rewrite Hhash, Hnone.
  unfold store_state, weakrefs_after in Hcall.
  cbn [next_id live weakrefs nn_modules sys_modules] in Hcall.
  destruct (is_valid_global_ref_key nk);
    cbn -[get_key propagate dict_lookup dict_set]; unfold bind at 1; rewrite Hcall;
    unfold dict_setitem; rewrite Hhash; cbn -[propagate dict_set];
    rewrite app_nil_r; reflexivity.
Qed.

Lemma dd_getitem_hit_eval :
  forall var_builder call_function s v it f k rest nk y,
    kind v = KDefaultDict it f ->
    get_key s k = ROk nk -> hashable nk = true -> dict_lookup nk it = Some y ->
    let y1 := init_var (next_id s) (guards_union (guards y) (guards v)) (mutable_local y)
                (Some (recursively_contains y)) (kind y) in
    dd_call_method var_builder call_function v "__getitem__" (k :: rest) [] s
    = (mkState (S (S (next_id s))) (live s) (weakrefs s) (nn_modules s) (sys_modules s), v,
       ROk (init_var (S (next_id s)) (guards_union (guards y1) (guards k)) (mutable_local y)
                     (Some (recursively_contains y)) (kind y))).
Proof.
  intros var_builder call_function s [i g ml rc kd] it f k rest nk y Hk Hget Hhash Hy y1.
  simpl in Hk. subst kd y1.
  unfold dd_call_method, keep. cbn -[get_key propagate dict_lookup].
  rewrite Hget. unfold dict_contains. rewrite Hhash, Hy.
  unfold getitem_const. cbn -[get_key propagate dict_lookup].
  rewrite Hget. unfold dict_getitem. rewrite Hhash, Hy. reflexivity.
Qed.

Lemma dd_getitem_nofactory_eval :
  forall var_builder call_function s i g ml rc it k rest nk,
    get_key s k = ROk nk -> hashable nk = true -> dict_lookup nk it = None ->
    let v := MkVar i g ml rc (KDefaultDict it None) in
    dd_call_method var_builder call_function v "__getitem__" (k :: rest) [] s
    = (s, v, RErr KeyErr).
Proof.
  intros var_builder call_function s i g ml rc it k rest nk Hget Hhash Hnone v. subst v.
  unfold dd_call_method, keep. cbn -[get_key propagate dict_lookup].
  rewrite Hget. unfold dict_contains. rewrite Hhash, Hnone. reflexivity.
Qed.

Lemma init_var_rc : forall i g ml r k, recursively_contains (init_var i g ml (Some r) k) = r.
Proof. reflexivity. Qed.

Lemma init_var_vid : forall i g ml rc k, vid (init_var i g ml rc k) = i.
Proof. reflexivity. Qed.

(** C1 — Copy-on-write identity: for a mutable ConstDictVariable [v] and a
    valid key [k] whose normalised form [nk] is hashable,
    [v.call_method("__setitem__", [k, x])] returns a variable [v2] that is a
    different instance from [v] ([vid]s differ), [v] itself (with its items)
    is left as it was, [v2.items[nk]] is [x], and [v2] replaces [v] in the
    tracer's live variables. *)
Theorem setitem_mutable_copy_on_write :
  forall var_builder s v c it m k x nk,
    kind v = KDict c it ->
    mutable_local v = Some m ->
    vid v < next_id s ->
    is_valid_key k = true ->
    get_key s k = ROk nk ->
    hashable nk = true ->
    match cd_call_method var_builder v "__setitem__" [k; x] [] s with
    | (s', v', ROk v2) =>
        v' = v /\ items_of v' = it /\ vid v2 <> vid v
        /\ dict_lookup nk (items_of v2) = Some x
        /\ live s' = replace_in v v2 (live s)
    | _ => False
    end.
Proof.
  intros var_builder s [i g ml rc kd] c it m k x nk Hk Hm Hfresh Hvalid Hget Hhash.
  simpl in Hk, Hm, Hfresh. subst kd ml.
  rewrite setitem_mutable_eval with (nk := nk) by assumption.
  refine (conj eq_refl (conj eq_refl (conj _ (conj _ eq_refl)))).
  - simpl. lia.
  - apply dict_lookup_set, py_eq_refl, Hhash.
Qed.

Lemma setitem_mutable_copy_on_write_witness :
  match cd_call_method ex_builder ex_dict_mut "__setitem__" [ex_key_a; ex_seven] [] ex_state with
  | (s', v', ROk v2) =>
      v' = ex_dict_mut /\ items_of v' = [(PStr "b", ex_one)] /\ vid v2 <> vid ex_dict_mut
      /\ dict_lookup (PStr "a") (items_of v2) = Some ex_seven
      /\ live s' = replace_in ex_dict_mut v2 (live ex_state)
  | _ => False
  end.
Proof.
  apply (setitem_mutable_copy_on_write ex_builder ex_state ex_dict_mut UDict
           [(PStr "b", ex_one)] 30 ex_key_a ex_seven (PStr "a"));
    vm_compute; first [reflexivity | lia].
Defined.

(** C2 (as stated) fails: a ConstDictVariable without [mutable_local] does
    not reject [__setitem__]; the call returns a variable, and the old
    instance gets a [mutable_local] in place. *)
Lemma immutable_setitem_not_rejected :
  match cd_call_method ex_builder ex_dict_imm "__setitem__" [ex_key_a; ex_one] [] ex_state with
  | (_, v', r) =>
      mutable_local ex_dict_imm = None
      /\ (forall msg, r <> RErr (Unsupported msg))
      /\ isSome (match r with ROk v2 => Some v2 | RErr _ => None end) = true
      /\ v' <> ex_dict_imm
  end.
Proof.
  vm_compute. split; [reflexivity|]. split; [intros msg H; discriminate|].
  split; [reflexivity | discriminate].
Qed.

(** C2 (amended) — mutability and the mutating calls of ConstDictVariable.
    Without a [mutable_local]: [pop] of a present key and [update] raise the
    unsupported-operation signal and leave the variable as it is, while
    [__setitem__] with a valid key is accepted: the old instance gets a fresh
    [mutable_local] in place (its items unchanged) and a brand-new variable
    holding [x] under the key is returned.  With a [mutable_local]:
    [__setitem__], [pop] of a present key and [update] with a mapping
    variable leave the old instance unchanged and produce a brand-new
    variable (an identity not handed out before the call), returned by
    [__setitem__] and [update], and registered by [pop] in place of the old
    one in the live variables while the popped value is returned. *)
Theorem mutating_calls_by_mutability :
  (forall var_builder s i g rc c it k rest nk y,
      is_valid_key k = true -> get_key s k = ROk nk -> hashable nk = true ->
      dict_lookup nk it = Some y ->
      match cd_call_method var_builder (MkVar i g None rc (KDict c it)) "pop" (k :: rest) [] s with
      | (s', v', RErr (Unsupported _)) => s' = s /\ v' = MkVar i g None rc (KDict c it)
      | _ => False
      end)
  /\ (forall var_builder s i g rc c it args,
      match cd_call_method var_builder (MkVar i g None rc (KDict c it)) "update" args [] s with
      | (s', v', RErr (Unsupported _)) => s' = s /\ v' = MkVar i g None rc (KDict c it)
      | _ => False
      end)
  /\ (forall var_builder s i g rc c it k x nk,
      i < next_id s -> is_valid_key k = true -> get_key s k = ROk nk -> hashable nk = true ->
      match cd_call_method var_builder (MkVar i g None rc (KDict c it)) "__setitem__" [k; x] [] s with
      | (s', v', ROk v2) =>
          v' = MkVar i g (Some (next_id s)) rc (KDict c it)
          /\ next_id s <= vid v2 /\ vid v2 <> i
          /\ dict_lookup nk (items_of v2) = Some x
      | _ => False
      end)
  /\ (forall var_builder s i g m rc c it k x nk,
      i < next_id s -> is_valid_key k = true -> get_key s k = ROk nk -> hashable nk = true ->
      match cd_call_method var_builder (MkVar i g (Some m) rc (KDict c it)) "__setitem__" [k; x] [] s with
      | (s', v', ROk v2) =>
          v' = MkVar i g (Some m) rc (KDict c it) /\ next_id s <= vid v2 /\ vid v2 <> i
      | _ => False
      end)
  /\ (forall var_builder s i g m rc c it k rest nk y,
      i < next_id s -> is_valid_key k = true -> get_key s k = ROk nk -> hashable nk = true ->
      dict_lookup nk it = Some y ->
      match cd_call_method var_builder (MkVar i g (Some m) rc (KDict c it)) "pop" (k :: rest) [] s with
      | (s', v', ROk _) =>
          v' = MkVar i g (Some m) rc (KDict c it)
          /\ exists v2, next_id s <= vid v2 /\ vid v2 <> i
                        /\ live s' = replace_in (MkVar i g (Some m) rc (KDict c it)) v2 (live s)
      | _ => False
      end)
  /\ (forall var_builder s i g m rc c it o rest ot,
      i < next_id s -> dict_items o = Some ot ->
      match cd_call_method var_builder (MkVar i g (Some m) rc (KDict c it)) "update" (o :: rest) [] s with
      | (s', v', ROk v2) =>
          v' = MkVar i g (Some m) rc (KDict c it) /\ next_id s <= vid v2 /\ vid v2 <> i
      | _ => False
      end).
Proof.
  repeat split.
  - intros var_builder s i g rc c it k rest nk y Hvalid Hget Hhash Hy.
    rewrite pop_present_immutable_eval with (nk := nk) (y := y) by assumption.
    split; reflexivity.
  - intros var_builder s i g rc c it args.
    rewrite update_immutable_eval. split; reflexivity.
  - intros var_builder s i g rc c it k x nk Hfresh Hvalid Hget Hhash.
    rewrite setitem_immutable_eval with (nk := nk) by assumption.
    refine (conj eq_refl (conj _ (conj _ _))); simpl; [lia | lia |].
    apply dict_lookup_set, py_eq_refl, Hhash.
  - intros var_builder s i g m rc c it k x nk Hfresh Hvalid Hget Hhash.
    rewrite setitem_mutable_eval with (nk := nk) by assumption.
    refine (conj eq_refl (conj _ _)); simpl; lia.
  - intros var_builder s i g m rc c it k rest nk y Hfresh Hvalid Hget Hhash Hy.
    rewrite pop_present_mutable_eval with (nk := nk) (y := y) by assumption.
    split; [reflexivity|]. eexists. split; [|split; [|reflexivity]]; simpl; lia.
  - intros var_builder s i g m rc c it o rest ot Hfresh Ho.
    rewrite update_mutable_eval with (ot := ot) by assumption.
    refine (conj eq_refl (conj _ _)); simpl; lia.
Qed.

(** C3 (as stated) fails for [pop]: the result is built with
    [recursively_contains=None] and so recomputed from the remaining values;
    the identity 40 of the popped mutable list is in the original's set and
    not in the derived variable's. *)
Lemma pop_drops_popped_identity :
  match cd_call_method ex_builder ex_dict_nested "pop" [ex_key_a] [] ex_state_nested with
  | (s', _, _) =>
      match live s' with
      | [v2] =>
          In 40 (recursively_contains ex_dict_nested)
          /\ ~ In 40 (recursively_contains v2)
          /\ vid v2 <> vid ex_dict_nested
      | _ => False
      end
  end.
Proof.
  vm_compute. split; [left; reflexivity|]. split; [intros [] | discriminate].
Qed.

(** C3 (amended) — aggregate-contains sets of derived variables.  For
    [__setitem__] (with or without [mutable_local]) and for the
    default-factory insertion, the derived variable's [recursively_contains]
    is the original's set united with the inserted value's set plus the
    inserted value's [mutable_local] when it has one ([rc_with]); for
    [update] it is the original's set united with the other mapping's set;
    for [pop] it is recomputed from the remaining values. *)
Theorem derived_recursively_contains :
  (forall var_builder s i g m rc c it k x nk,
      is_valid_key k = true -> get_key s k = ROk nk -> hashable nk = true ->
      match cd_call_method var_builder (MkVar i g m rc (KDict c it)) "__setitem__" [k; x] [] s with
      | (_, _, ROk v2) => recursively_contains v2 = rc_with (MkVar i g m rc (KDict c it)) x
      | _ => False
      end)
  /\ (forall var_builder s i g m rc c it o rest ot,
      dict_items o = Some ot ->
      match cd_call_method var_builder (MkVar i g (Some m) rc (KDict c it)) "update" (o :: rest) [] s with
      | (_, _, ROk v2) => recursively_contains v2 = ids_union rc (recursively_contains o)
      | _ => False
      end)
  /\ (forall var_builder call_function s i g ml rc it f k rest nk s2 dv,
      get_key s k = ROk nk -> hashable nk = true -> dict_lookup nk it = None ->
      call_function f (store_state s nk) = (s2, ROk dv) ->
      let v := MkVar i g ml rc (KDefaultDict it (Some f)) in
      match dd_call_method var_builder call_function v "__getitem__" (k :: rest) [] s with
      | (s', _, ROk _) =>
          exists v2, live s' = replace_in v v2 (live s2)
                     /\ recursively_contains v2 = rc_with v dv
      | _ => False
      end)
  /\ (forall var_builder s i g m rc c it k rest nk y,
      is_valid_key k = true -> get_key s k = ROk nk -> hashable nk = true ->
      dict_lookup nk it = Some y ->
      let v := MkVar i g (Some m) rc (KDict c it) in
      match cd_call_method var_builder v "pop" (k :: rest) [] s with
      | (s', _, ROk _) =>
          exists v2, live s' = replace_in v v2 (live s)
                     /\ recursively_contains v2 = aggregate_mutables (KDict c (dict_remove nk it))
      | _ => False
      end).
Proof.
  split; [|split; [|split]].
  - intros var_builder s i g [m|] rc c it k x nk Hvalid Hget Hhash.
    + rewrite setitem_mutable_eval with (nk := nk) by assumption. reflexivity.
    + rewrite setitem_immutable_eval with (nk := nk) by assumption. reflexivity.
  - intros var_builder s i g m rc c it o rest ot Ho.
    rewrite update_mutable_eval with (ot := ot) by assumption. reflexivity.
  - intros var_builder call_function s i g ml rc it f k rest nk s2 dv Hget Hhash Hnone Hcall v.
    subst v. rewrite dd_getitem_miss_eval with (nk := nk) (s2 := s2) (dv := dv) by assumption.
    eexists. split; reflexivity.
  - intros var_builder s i g m rc c it k rest nk y Hvalid Hget Hhash Hy v. subst v.
    rewrite pop_present_mutable_eval with (nk := nk) (y := y) by assumption.
    eexists. split; reflexivity.
Qed.

(** C5 (as stated) fails: the second [__getitem__] on the successor [v2]
    takes the hit path but returns a new instance (a guard-carrying copy made
    by [add_options]), not the value variable the factory produced. *)
Lemma default_factory_hit_returns_copy :
  match dd_call_method ex_builder ex_call_function ex_defaultdict "__getitem__"
          [ex_key_a] [] ex_state_dd with
  | (s1, _, ROk dv) =>
      match live s1 with
      | [v2] =>
          match dd_call_method ex_builder ex_call_function v2 "__getitem__" [ex_key_a] [] s1 with
          | (_, _, ROk r) => dict_lookup (PStr "a") (items_of v2) = Some dv
                             /\ r <> dv /\ vid r <> vid dv
          | _ => False
          end
      | _ => False
      end
  | _ => False
  end.
Proof.
  vm_compute. split; [reflexivity|]. split; discriminate.
Qed.

Lemma dict_lookup_append_absent : forall k x it,
  py_eq k k = true -> dict_lookup k it = None -> dict_lookup k (it ++ [(k, x)]) = Some x.
Proof.
  intros k x it Hk Hnone. rewrite <- dict_set_absent by exact Hnone.
  apply dict_lookup_set, Hk.
Qed.

(** C5 (amended) — default-factory miss, then hit.  With a factory [f] and
    a key [k] normalising to [nk] absent from the items, the first
    [__getitem__(k)] calls the factory once, returns its value [dv] and puts
    the successor [v2], whose items are the old ones followed by [nk -> dv],
    in place of [v] among the live variables.  A second [__getitem__(k)] on
    [v2] takes the hit path: the factory is not called (the state changes only
    by two fresh identities) and the result is a copy of [dv] (same kind,
    [mutable_local] and [recursively_contains]) carrying the guards of [v2]
    and of [k] in addition, as a new instance. *)
Theorem default_factory_miss_then_hit :
  forall var_builder call_function s i g ml rc it f k rest nk s2 dv,
    get_key s k = ROk nk -> hashable nk = true -> dict_lookup nk it = None ->
    call_function f (store_state s nk) = (s2, ROk dv) ->
    nn_modules s2 = nn_modules s -> vid dv < next_id s2 ->
    let v := MkVar i g ml rc (KDefaultDict it (Some f)) in
    let v2 := init_var (next_id s2) (propagate (v :: k :: rest)) ml
                (Some (rc_with v dv)) (KDefaultDict (it ++ [(nk, dv)]) (Some f)) in
    let s3 := mkState (S (next_id s2)) (replace_in v v2 (live s2)) (weakrefs s2)
                      (nn_modules s2) (sys_modules s2) in
    let dv1 := init_var (next_id s3) (guards_union (guards dv) (guards v2))
                 (mutable_local dv) (Some (recursively_contains dv)) (kind dv) in
    let r := init_var (S (next_id s3)) (guards_union (guards dv1) (guards k))
                      (mutable_local dv) (Some (recursively_contains dv)) (kind dv) in
    dd_call_method var_builder call_function v "__getitem__" (k :: rest) [] s
      = (s3, v, ROk dv)
    /\ dd_call_method var_builder call_function v2 "__getitem__" (k :: rest) [] s3
      = (mkState (S (S (next_id s3))) (live s3) (weakrefs s3) (nn_modules s3) (sys_modules s3),
         v2, ROk r)
    /\ vid r <> vid dv.
Proof.
  intros var_builder call_function s i g ml rc it f k rest nk s2 dv
    Hget Hhash Hnone Hcall Hnn Hlt v v2 s3 dv1 r.
  split; [|split].
  - pose proof (dd_getitem_miss_eval var_builder call_function s i g ml rc it f k rest
                  nk s2 dv Hget Hhash Hnone Hcall) as H.
    cbv zeta in H. rewrite dict_set_absent in H by exact Hnone. exact H.
  - apply dd_getitem_hit_eval with (it := (it ++ [(nk, dv)])%list) (f := Some f) (nk := nk).
    + reflexivity.
    + rewrite get_key_nn with (s := s) by (subst s3; cbn; exact Hnn). exact Hget.
    + exact Hhash.
    + apply dict_lookup_append_absent; [apply py_eq_refl, Hhash | exact Hnone].
  - subst r s3. rewrite init_var_vid. cbn [next_id]. lia.
Qed.

Lemma default_factory_miss_then_hit_witness :
  let dv := MkVar 101 [] (Some 100) [] (KOther "ListVariable" None) in
  let v2 := init_var 102 (propagate [ex_defaultdict; ex_key_a]) (Some 80)
              (Some (rc_with ex_defaultdict dv))
              (KDefaultDict [(PStr "a", dv)] (Some ex_factory)) in
  let s3 := mkState 103 [v2] [] [] [] in
  dd_call_method ex_builder ex_call_function ex_defaultdict "__getitem__" [ex_key_a] [] ex_state_dd
    = (s3, ex_defaultdict, ROk dv)
  /\ exists r,
      dd_call_method ex_builder ex_call_function v2 "__getitem__" [ex_key_a] [] s3
        = (mkState 105 [v2] [] [] [], v2, ROk r)
      /\ vid r <> vid dv.
Proof.
  intros dv v2 s3.
  destruct (default_factory_miss_then_hit ex_builder ex_call_function ex_state_dd
              8 [GTag 8] (Some 80) [] [] ex_factory ex_key_a [] (PStr "a")
              (mkState 102 [ex_defaultdict] [] [] []) dv
              eq_refl eq_refl eq_refl eq_refl eq_refl ltac:(cbn; lia)) as [H1 [H2 H3]].
  split; [exact H1 | eexists; split; [exact H2 | exact H3]].
Defined.

(** C4 — key validity versus normalisation.  [is_valid_key x] agrees with
    the success of [get_key s x] except on two kinds of variables:
    NNModuleVariables (valid keys whose [get_key] fails when the module key is
    not registered) and empty DefaultDictVariables.  The second mismatch holds
    for every default factory, also for the allow-listed [list] of
    [ex_factory]: DefaultDictVariable.is_python_constant (line 289) tests
    [self.default_factory not in [list, tuple, dict]] on the VariableTracker
    of the factory, which never equals a type object, so an empty
    defaultdict(list) is reported as not constant, hence not a valid key,
    while [get_key] normalises it to the empty dict. *)
Theorem is_valid_key_get_key_empty_defaultdict :
  (forall s x,
      is_valid_key x
      = negb (empty_defaultdict x) && (is_ok (get_key s x) || is_nn_module x))
  /\ (forall s i g ml rc f,
      is_valid_key (MkVar i g ml rc (KDefaultDict [] f)) = false
      /\ get_key s (MkVar i g ml rc (KDefaultDict [] f)) = ROk (PDict []))
  /\ kind ex_factory = KOther "BuiltinVariable(list)" None
  /\ kind ex_defaultdict = KDefaultDict [] (Some ex_factory)
  /\ is_valid_key ex_defaultdict = false
  /\ get_key ex_state ex_defaultdict = ROk (PDict []).
Proof.
  split; [|split; [|repeat split; reflexivity]].
  - intros s [i g ml rc k].
    unfold is_valid_key, is_python_constant, get_key, empty_defaultdict, is_nn_module.
    cbn [kind].
    destruct k as [c | [sv|] | key | uc it | it f | l | l | tag c]; cbn [orb andb negb];
      try (destruct (as_python_constant _); reflexivity).
    + destruct c; reflexivity.
    + destruct (assoc_str key (nn_modules s)); reflexivity.
    + destruct it as [|kv it]; cbn [factory_in_builtins existsb factory_eq_builtin orb andb negb].
      * reflexivity.
      * destruct (as_python_constant _); reflexivity.
  - intros s i g ml rc f. split; reflexivity.
Qed.

(** C6 — defaultdict without factory: for a DefaultDictVariable with no
    [default_factory] and a key [k] normalising to a hashable [nk] absent from
    its items, [__getitem__(k)] raises KeyError: the error is the call's
    result and the state is unchanged (no value is fabricated). *)
Theorem defaultdict_no_factory_keyerror :
  forall var_builder call_function s i g ml rc it k rest nk,
    get_key s k = ROk nk -> hashable nk = true -> dict_lookup nk it = None ->
    dd_call_method var_builder call_function (MkVar i g ml rc (KDefaultDict it None))
                   "__getitem__" (k :: rest) [] s
    = (s, MkVar i g ml rc (KDefaultDict it None), RErr KeyErr).
Proof.
  intros var_builder call_function s i g ml rc it k rest nk Hget Hhash Hnone.
  exact (dd_getitem_nofactory_eval var_builder call_function s i g ml rc it k rest nk
           Hget Hhash Hnone).
Qed.

Lemma defaultdict_no_factory_keyerror_witness :
  dd_call_method ex_builder ex_call_function ex_defaultdict_nofactory "__getitem__"
                 [ex_key_a] [] ex_state
  = (ex_state, ex_defaultdict_nofactory, RErr KeyErr).
Proof.
  exact (defaultdict_no_factory_keyerror ex_builder ex_call_function ex_state
           10 [GTag 10] (Some 81) [] [] ex_key_a [] (PStr "a") eq_refl eq_refl eq_refl).
Defined.

(** C7 — [__contains__] on sys.modules: [_contains_helper] calls
    [ConstDictVariable.get_key(key)] without the [tx] argument, so
    [call_contains] raises TypeError for every key and every state, in
    particular for "alpha" present in and "beta" absent from the table of
    [ex_state]; no constant and no guard is produced. *)
Theorem sys_modules_contains_type_error :
  (forall self key s,
      call_contains self key s
      = (s, RErr (TypeErr "get_key() missing 1 required positional argument: 'arg'")))
  /\ sys_modules_contains ex_state (PStr "alpha") = ROk true
  /\ sys_modules_contains ex_state (PStr "beta") = ROk false
  /\ snd (call_contains ex_sys_modules_var ex_key_alpha ex_state)
     = RErr (TypeErr "get_key() missing 1 required positional argument: 'arg'")
  /\ snd (call_contains ex_sys_modules_var ex_key_beta ex_state)
     = RErr (TypeErr "get_key() missing 1 required positional argument: 'arg'").
Proof.
  split; [intros self key s; reflexivity | repeat split; reflexivity].
Qed.

(** C8 — [pop(k, default)] with [k] absent: for a ConstDictVariable [v]
    (mutable or not) and a valid key [k] whose hashable normal form is absent
    from [v]'s items, [v.pop(k, d)] returns a copy of [d] (same kind,
    [mutable_local] and [recursively_contains], carrying the guards of [v],
    [k] and [d]); [v] is returned unchanged, the live variables and weak
    references are untouched and only one fresh identity is allocated (for
    the copy of [d]); no mapping variable is created or replaced. *)
Theorem pop_missing_with_default :
  forall var_builder s i g ml rc c it k d nk,
    is_valid_key k = true -> get_key s k = ROk nk -> hashable nk = true ->
    dict_lookup nk it = None ->
    let v := MkVar i g ml rc (KDict c it) in
    cd_call_method var_builder v "pop" [k; d] [] s
    = (mkState (S (next_id s)) (live s) (weakrefs s) (nn_modules s) (sys_modules s), v,
       ROk (init_var (next_id s) (guards_union (guards d) (propagate [v; k; d]))
                     (mutable_local d) (Some (recursively_contains d)) (kind d))).
Proof.
  intros var_builder s i g ml rc c it k d nk Hvalid Hget Hhash Hnone v. subst v.
  unfold cd_call_method, keep, missing_with_default.
  cbn -[get_key is_valid_key propagate dict_lookup].
  rewrite Hvalid. cbn -[get_key is_valid_key propagate dict_lookup].
  unfold cond at 1. rewrite Hget. unfold dict_contains. rewrite Hhash, Hnone.
  destruct s; reflexivity.
Qed.

Lemma pop_missing_with_default_witness :
  cd_call_method ex_builder ex_dict_mut "pop" [ex_key_z; ex_seven] [] ex_state
  = (mkState 101 [] [] [] [(PStr "alpha", PModule 7)], ex_dict_mut,
     ROk (init_var 100 (guards_union (guards ex_seven)
                          (propagate [ex_dict_mut; ex_key_z; ex_seven]))
                   None (Some []) (KConst (PInt 7)))).
Proof.
  exact (pop_missing_with_default ex_builder ex_state 3 [GTag 3] (Some 30) [] UDict
           [(PStr "b", ex_one)] ex_key_z ex_seven (PStr "z")
           eq_refl eq_refl eq_refl eq_refl).
Defined.

(** C9 — single-field dataclass: [DataClassVariable.create] looks up the
    remaining field with [items[keys[0]]].  When the one field left after
    dropping [None] defaults is not the first field of the schema, that
    lookup raises KeyError instead of the Unsupported signal; with the field
    first, Unsupported is raised as intended. *)
Theorem dataclass_single_field_not_first_keyerror :
  snd (dc_create false "Out" ["a"; "b"] [("a", BLit PNone); ("b", BVar ex_one)] [] ex_state)
  = RErr KeyErr
  /\ snd (dc_create false "Out" ["a"; "b"] [("a", BVar ex_one); ("b", BLit PNone)] [] ex_state)
  = RErr (Unsupported "DataClassVariable iterator constructor").
Proof. split; vm_compute; reflexivity. Qed.

(** C10 — [get] on sys.modules: [call_get] goes through [_contains_helper],
    which calls [ConstDictVariable.get_key(key)] without [tx]; so for every
    key, default and state it raises TypeError, also for a key absent from the
    table and no default, where no constant None is produced. *)
Theorem sys_modules_get_type_error :
  (forall var_builder self key default s,
      call_get var_builder self key default s
      = (s, RErr (TypeErr "get_key() missing 1 required positional argument: 'arg'")))
  /\ sys_modules_contains ex_state (PStr "beta") = ROk false
  /\ snd (call_get ex_builder ex_sys_modules_var ex_key_beta None ex_state)
     = RErr (TypeErr "get_key() missing 1 required positional argument: 'arg'").
Proof.
  split; [intros; reflexivity | split; reflexivity].
Qed.

(** * Further properties of the mapping variables *)
Lemma py_eq_sym : forall x y, py_eq x y = py_eq y x.
Proof.
  induction x using PyVal_deep_ind; intros [| b' | z' | s' | d' | l' | dl' | n' | n'];
    simpl; try reflexivity;
    try solve [match goal with |- Bool.eqb ?a ?b = _ => destruct a, b; reflexivity end | apply Z.eqb_sym | apply String.eqb_sym | apply Nat.eqb_sym].
  revert l'. induction H as [|a l Ha Hl IH]; intros [|b l']; try reflexivity.
  simpl. rewrite Ha. f_equal. apply IH.
Qed.

Lemma bool_as_int_inj : forall a b, bool_as_int a = bool_as_int b -> a = b.
Proof. intros [|] [|]; simpl; congruence. Qed.

Lemma py_eq_trans : forall x y z, py_eq x y = true -> py_eq y z = true -> py_eq x z = true.
Proof.
  induction x using PyVal_deep_ind;
    intros [| b' | z' | s' | d' | l' | dl' | n' | n'] [| b'' | z'' | s'' | d'' | l'' | dl'' | n'' | n''];
    simpl; intros H1 H2; try discriminate; try reflexivity;
    repeat match goal with
    | H : Bool.eqb _ _ = true |- _ => apply Bool.eqb_prop in H
    | H : Z.eqb _ _ = true |- _ => apply Z.eqb_eq in H
    | H : String.eqb _ _ = true |- _ => apply String.eqb_eq in H
    | H : Nat.eqb _ _ = true |- _ => apply Nat.eqb_eq in H
    end; subst;
    try solve [apply Bool.eqb_reflx | apply Z.eqb_refl | apply String.eqb_refl | apply Nat.eqb_refl
              | apply Bool.eqb_true_iff, bool_as_int_inj; assumption
              | apply Z.eqb_eq; assumption].
  revert l' l'' H1 H2. induction H as [|a l Ha Hl IH]; intros [|b l'] [|c l'']; simpl;
    intros H1 H2; try discriminate; try reflexivity.
  apply andb_true_iff in H1 as [H1a H1b]. apply andb_true_iff in H2 as [H2a H2b].
  rewrite (Ha b c H1a H2a). simpl. exact (IH l' l'' H1b H2b).
Qed.

Lemma dict_lookup_congr : forall a b l, py_eq a b = true -> dict_lookup a l = dict_lookup b l.
Proof.
  intros a b l H. induction l as [|[k v] r IH]; simpl; [reflexivity|].
  destruct (py_eq a k) eqn:E1, (py_eq b k) eqn:E2; try reflexivity.
  - rewrite py_eq_sym in H. rewrite (py_eq_trans _ _ _ H E1) in E2. discriminate.
  - rewrite (py_eq_trans _ _ _ H E2) in E1. discriminate.
  - exact IH.
Qed.

Lemma dict_lookup_set_eq : forall k k0 x it,
  py_eq k k0 = true -> dict_lookup k (dict_set k0 x it) = Some x.
Proof.
  intros k k0 x it H. induction it as [|[k1 v1] r IH]; simpl.
  - rewrite H. reflexivity.
  - destruct (py_eq k0 k1) eqn:E; simpl.
    + rewrite (py_eq_trans _ _ _ H E). reflexivity.
    + destruct (py_eq k k1) eqn:E'; [|exact IH].
      rewrite py_eq_sym in H. rewrite (py_eq_trans _ _ _ H E') in E. discriminate.
Qed.

Lemma dict_lookup_set_other : forall k k0 x it,
  py_eq k k0 = false -> dict_lookup k (dict_set k0 x it) = dict_lookup k it.
Proof.
  intros k k0 x it H. induction it as [|[k1 v1] r IH]; simpl.
  - rewrite H. reflexivity.
  - destruct (py_eq k0 k1) eqn:E; simpl.
    + destruct (py_eq k k1) eqn:E'; [|reflexivity].
      rewrite py_eq_sym in E. rewrite (py_eq_trans _ _ _ E' E) in H. discriminate.
    + destruct (py_eq k k1); [reflexivity | exact IH].
Qed.

Lemma dict_lookup_remove_other : forall k k0 it,
  py_eq k k0 = false -> dict_lookup k (dict_remove k0 it) = dict_lookup k it.
Proof.
  intros k k0 it H. induction it as [|[k1 v1] r IH]; simpl; [reflexivity|].
  destruct (py_eq k0 k1) eqn:E; simpl.
  - destruct (py_eq k k1) eqn:E'; [|reflexivity].
    rewrite py_eq_sym in E. rewrite (py_eq_trans _ _ _ E' E) in H. discriminate.
  - destruct (py_eq k k1); [reflexivity | exact IH].
Qed.

Lemma dict_lookup_remove_same : forall k it,
  keys_distinct it = true -> dict_lookup k (dict_remove k it) = None.
Proof.
  intros k it Hd. induction it as [|[k1 v1] r IH]; simpl; [reflexivity|].
  simpl in Hd. apply andb_true_iff in Hd as [Hn Hd].
  destruct (py_eq k k1) eqn:E.
  - rewrite (dict_lookup_congr _ _ _ E). destruct (dict_lookup k1 r); [discriminate | reflexivity].
  - simpl. rewrite E. exact (IH Hd).
Qed.

Lemma dict_lookup_update : forall ot it k,
  keys_distinct ot = true ->
  dict_lookup k (dict_update it ot)
  = match dict_lookup k ot with Some x => Some x | None => dict_lookup k it end.
Proof.
  unfold dict_update. induction ot as [|[k0 v0] r IH]; intros it k Hd; simpl; [reflexivity|].
  simpl in Hd. apply andb_true_iff in Hd as [Hn Hd].
  rewrite (IH _ k Hd).
  destruct (py_eq k k0) eqn:E.
  - rewrite (dict_lookup_congr _ _ r E). destruct (dict_lookup k0 r); [discriminate|].
    apply dict_lookup_set_eq, E.
  - destruct (dict_lookup k r); [reflexivity|]. apply dict_lookup_set_other, E.
Qed.

Lemma cd_getitem_eval :
  forall var_builder s v k rest kwargs nk y,
    get_key s k = ROk nk -> hashable nk = true -> dict_lookup nk (items_of v) = Some y ->
    let y1 := init_var (next_id s) (guards_union (guards y) (guards v)) (mutable_local y)
                (Some (recursively_contains y)) (kind y) in
    cd_call_method var_builder v "__getitem__" (k :: rest) kwargs s
    = (mkState (S (S (next_id s))) (live s) (weakrefs s) (nn_modules s) (sys_modules s), v,
       ROk (init_var (S (next_id s)) (guards_union (guards y1) (guards k)) (mutable_local y)
                     (Some (recursively_contains y)) (kind y))).
Proof.
  intros var_builder s v k rest kwargs nk y Hget Hhash Hy y1. subst y1.
  unfold cd_call_method, keep, getitem_const. cbn -[get_key propagate dict_lookup items_of].
  rewrite Hget. unfold dict_getitem. rewrite Hhash, Hy. reflexivity.
Qed.

Lemma cd_getitem_lookup_err_eval :
  forall var_builder s v k rest kwargs nk e,
    get_key s k = ROk nk -> dict_getitem nk (items_of v) = RErr e ->
    cd_call_method var_builder v "__getitem__" (k :: rest) kwargs s = (s, v, RErr e).
Proof.
  intros var_builder s v k rest kwargs nk e Hget He.
  unfold cd_call_method, keep, getitem_const.
  cbn -[get_key propagate dict_lookup items_of dict_getitem].
  rewrite Hget, He. reflexivity.
Qed.

Lemma cd_getitem_key_err_eval :
  forall var_builder s v k rest kwargs e,
    get_key s k = RErr e ->
    cd_call_method var_builder v "__getitem__" (k :: rest) kwargs s = (s, v, RErr e).
Proof.
  intros var_builder s v k rest kwargs e Hget.
  unfold cd_call_method, keep, getitem_const.
  cbn -[get_key propagate dict_lookup items_of dict_getitem].
  rewrite Hget. reflexivity.
Qed.

Lemma cd_missing_default_eval :
  forall var_builder s v name k d nk,
    (name = "pop" \/ name = "get") ->
    is_valid_key k = true -> get_key s k = ROk nk -> hashable nk = true ->
    dict_lookup nk (items_of v) = None ->
    cd_call_method var_builder v name [k; d] [] s
    = (mkState (S (next_id s)) (live s) (weakrefs s) (nn_modules s) (sys_modules s), v,
       ROk (init_var (next_id s) (guards_union (guards d) (propagate [v; k; d]))
                     (mutable_local d) (Some (recursively_contains d)) (kind d))).
Proof.
  intros var_builder s v name k d nk Hname Hvalid Hget Hhash Hnone.
  destruct Hname as [-> | ->];
  unfold cd_call_method, keep, missing_with_default;
  cbn -[get_key is_valid_key propagate dict_lookup items_of];
  rewrite Hvalid; cbn -[get_key is_valid_key propagate dict_lookup items_of];
  unfold cond at 1; rewrite Hget; unfold dict_contains; rewrite Hhash, Hnone;
  destruct s; reflexivity.
Qed.

Lemma cd_get_present_eval :
  forall var_builder s v k rest nk y,
    is_valid_key k = true -> get_key s k = ROk nk -> hashable nk = true ->
    dict_lookup nk (items_of v) = Some y ->
    cd_call_method var_builder v "get" (k :: rest) [] s
    = (mkState (S (next_id s)) (live s) (weakrefs s) (nn_modules s) (sys_modules s), v,
       ROk (init_var (next_id s) (guards_union (guards y) (propagate (v :: k :: rest)))
                     (mutable_local y) (Some (recursively_contains y)) (kind y))).
Proof.
  intros var_builder s v k rest nk y Hvalid Hget Hhash Hy.
  unfold cd_call_method, keep, missing_with_default, present_for_get.
  cbn -[get_key is_valid_key propagate dict_lookup items_of].
  rewrite Hvalid. cbn -[get_key is_valid_key propagate dict_lookup items_of].
  unfold cond at 1. rewrite Hget. unfold dict_contains. rewrite Hhash, Hy.
  cbn -[get_key is_valid_key propagate dict_lookup items_of].
  unfold cond at 1. rewrite Hget, Hhash, Hy.
  unfold dict_getitem. rewrite Hhash, Hy, app_nil_r. destruct s; reflexivity.
Qed.

Lemma mapM_key_to_var_literal : forall var_builder options it s,
  forallb literal_key it = true ->
  mapM (fun kv => key_to_var var_builder (fst kv) options) it s
  = (mkState (next_id s + List.length it) (live s) (weakrefs s) (nn_modules s) (sys_modules s),
     ROk (const_key_vars (next_id s) options it)).
Proof.
  intros var_builder options it. induction it as [|[k x] r IH]; intros s Hl.
  - destruct s; simpl. rewrite Nat.add_0_r. reflexivity.
  - simpl in Hl. apply andb_true_iff in Hl as [Hk Hr]. unfold literal_key in Hk.
    apply andb_true_iff in Hk as [Hg Hlit]. apply negb_true_iff in Hg. cbn [fst] in Hg, Hlit.
    cbn [mapM]. unfold bind at 1.
    replace (key_to_var var_builder (fst (k, x)) options)
      with (new_var options None None (KConst k))
      by (unfold key_to_var; cbn [fst]; rewrite Hg, Hlit; reflexivity).
    rewrite new_var_spec. unfold bind at 1. rewrite IH by exact Hr.
    cbn [next_id live weakrefs nn_modules sys_modules].
    unfold ret. cbn [List.length const_key_vars]. rewrite Nat.add_succ_r. reflexivity.
Qed.

Lemma const_key_vars_kind : forall n options it,
  map kind (const_key_vars n options it) = map (fun kv => KConst (fst kv)) it.
Proof.
  intros n options it. revert n. induction it as [|[k x] r IH]; intro n; simpl; [reflexivity|].
  f_equal. apply IH.
Qed.

Lemma const_key_vars_vid : forall n options it,
  map vid (const_key_vars n options it) = seq n (List.length it).
Proof.
  intros n options it. revert n. induction it as [|[k x] r IH]; intro n; simpl; [reflexivity|].
  f_equal. apply IH.
Qed.

(** ConstDictVariable.call_method, [__getitem__]: a present key gives a copy
    of the stored value (same kind, mutable_local and recursively_contains,
    two fresh identities, the live variables unchanged); an absent key raises
    KeyError, a key normalising to an unhashable value TypeError, and an
    error of [get_key] is propagated; on an error the state is unchanged. *)
Theorem const_dict_getitem :
  (forall var_builder s v k rest kwargs nk y,
      get_key s k = ROk nk -> hashable nk = true -> dict_lookup nk (items_of v) = Some y ->
      match cd_call_method var_builder v "__getitem__" (k :: rest) kwargs s with
      | (s', v', ROk r) =>
          v' = v /\ kind r = kind y /\ mutable_local r = mutable_local y
          /\ recursively_contains r = recursively_contains y
          /\ vid r = S (next_id s) /\ next_id s' = S (S (next_id s)) /\ live s' = live s
      | _ => False
      end)
  /\ (forall var_builder s v k rest kwargs nk,
      get_key s k = ROk nk -> hashable nk = true -> dict_lookup nk (items_of v) = None ->
      cd_call_method var_builder v "__getitem__" (k :: rest) kwargs s = (s, v, RErr KeyErr))
  /\ (forall var_builder s v k rest kwargs nk,
      get_key s k = ROk nk -> hashable nk = false ->
      cd_call_method var_builder v "__getitem__" (k :: rest) kwargs s = (s, v, RErr unhashable))
  /\ (forall var_builder s v k rest kwargs e,
      get_key s k = RErr e ->
      cd_call_method var_builder v "__getitem__" (k :: rest) kwargs s = (s, v, RErr e)).
Proof.
  split; [|split; [|split]].
  - intros var_builder s v k rest kwargs nk y Hget Hhash Hy.
    rewrite cd_getitem_eval with (nk := nk) (y := y) by assumption.
    repeat split; reflexivity.
  - intros var_builder s v k rest kwargs nk Hget Hhash Hnone.
    apply cd_getitem_lookup_err_eval with (nk := nk); [exact Hget|].
    unfold dict_getitem. rewrite Hhash, Hnone. reflexivity.
  - intros var_builder s v k rest kwargs nk Hget Hhash.
    apply cd_getitem_lookup_err_eval with (nk := nk); [exact Hget|].
    unfold dict_getitem. rewrite Hhash. reflexivity.
  - intros var_builder s v k rest kwargs e Hget.
    apply cd_getitem_key_err_eval, Hget.
Qed.

(** ConstDictVariable.call_method, [values] and [__len__]: without arguments
    [values] gives a fresh tuple of the stored values in insertion order and
    [__len__] a fresh constant equal to the number of items, each allocating
    one identity and leaving the dict unchanged; [items], [keys], [values] and
    [__len__] called with any positional or keyword argument fail their
    assertion with the state unchanged. *)
Theorem const_dict_values_len :
  (forall var_builder v s,
      cd_call_method var_builder v "values" [] [] s
      = (mkState (S (next_id s)) (live s) (weakrefs s) (nn_modules s) (sys_modules s), v,
         ROk (init_var (next_id s) (propagate [v]) None None (KTuple (map snd (items_of v))))))
  /\ (forall var_builder v s,
      cd_call_method var_builder v "__len__" [] [] s
      = (mkState (S (next_id s)) (live s) (weakrefs s) (nn_modules s) (sys_modules s), v,
         ROk (init_var (next_id s) (propagate [v]) None None
                       (KConst (PInt (Z.of_nat (List.length (items_of v))))))))
  /\ (forall var_builder v s name args kwargs,
      In name ["items"; "keys"; "values"; "__len__"] -> (args <> [] \/ kwargs <> []) ->
      cd_call_method var_builder v name args kwargs s = (s, v, RErr AssertErr)).
Proof.
  split; [|split].
  - intros var_builder v s. destruct s; reflexivity.
  - intros var_builder v s. destruct s; reflexivity.
  - intros var_builder v s name args kwargs Hin Hne.
    destruct Hin as [<-|[<-|[<-|[<-|[]]]]];
      destruct args, kwargs; try (destruct Hne as [H|H]; congruence); reflexivity.
Qed.

(** ConstDictVariable.unpack_var_sequence and [keys]: when every key is a
    literal that is not a global reference (a string, number, bool or None),
    iterating the dict gives one fresh ConstantVariable per key, in insertion
    order, with consecutive identities starting at the next free one; [keys]
    wraps exactly these in a SetVariable that gets a fresh mutable_local. *)
Theorem const_dict_keys_literal :
  forall var_builder v s,
    forallb literal_key (items_of v) = true ->
    let n := next_id s in
    let ks := const_key_vars n (propagate [v]) (items_of v) in
    unpack_var_sequence var_builder v s
    = (mkState (n + List.length (items_of v)) (live s) (weakrefs s) (nn_modules s) (sys_modules s),
       ROk ks)
    /\ cd_call_method var_builder v "keys" [] [] s
       = (mkState (S (S (n + List.length (items_of v)))) (live s) (weakrefs s) (nn_modules s)
                  (sys_modules s), v,
          ROk (init_var (S (n + List.length (items_of v))) (propagate [v])
                        (Some (n + List.length (items_of v))) None (KSet ks)))
    /\ map kind ks = map (fun kv => KConst (fst kv)) (items_of v)
    /\ map vid ks = seq n (List.length (items_of v)).
Proof.
  intros var_builder v s Hl n ks. subst n ks.
  split; [|split; [|split]].
  - unfold unpack_var_sequence. apply mapM_key_to_var_literal, Hl.
  - unfold cd_call_method, keep. cbn -[mapM propagate init_var items_of].
    unfold bind at 1. rewrite mapM_key_to_var_literal by exact Hl. reflexivity.
  - apply const_key_vars_kind.
  - apply const_key_vars_vid.
Qed.

Lemma const_dict_keys_literal_witness :
  forallb literal_key (items_of ex_dict_mut) = true
  /\ map kind (const_key_vars 100 (propagate [ex_dict_mut]) (items_of ex_dict_mut))
     = [KConst (PStr "b")]
  /\ (let n := next_id ex_state in
      let ks := const_key_vars n (propagate [ex_dict_mut]) (items_of ex_dict_mut) in
      unpack_var_sequence ex_builder ex_dict_mut ex_state
      = (mkState (n + 1) [] [] [] [(PStr "alpha", PModule 7)], ROk ks)).
Proof.
  split; [reflexivity|]. split; [reflexivity|].
  exact (proj1 (const_dict_keys_literal ex_builder ex_dict_mut ex_state eq_refl)).
Defined.

(** ConstDictVariable.call_method, [get]: for a valid key present in the
    dict, [get] returns a copy of the stored value with one fresh identity;
    for an absent key with a default, a copy of the default; for an absent
    key and no default, no arm of ConstDictVariable.call_method applies and
    the call falls through to the base class [call_method]. *)
Theorem const_dict_get :
  (forall var_builder s v k rest nk y,
      is_valid_key k = true -> get_key s k = ROk nk -> hashable nk = true ->
      dict_lookup nk (items_of v) = Some y ->
      match cd_call_method var_builder v "get" (k :: rest) [] s with
      | (s', v', ROk r) =>
          v' = v /\ kind r = kind y /\ mutable_local r = mutable_local y
          /\ recursively_contains r = recursively_contains y /\ vid r = next_id s
          /\ next_id s' = S (next_id s) /\ live s' = live s
      | _ => False
      end)
  /\ (forall var_builder s v k d nk,
      is_valid_key k = true -> get_key s k = ROk nk -> hashable nk = true ->
      dict_lookup nk (items_of v) = None ->
      match cd_call_method var_builder v "get" [k; d] [] s with
      | (s', v', ROk r) =>
          v' = v /\ kind r = kind d /\ mutable_local r = mutable_local d
          /\ recursively_contains r = recursively_contains d /\ vid r = next_id s
          /\ next_id s' = S (next_id s) /\ live s' = live s
      | _ => False
      end)
  /\ (forall var_builder s v k nk,
      is_valid_key k = true -> get_key s k = ROk nk -> hashable nk = true ->
      dict_lookup nk (items_of v) = None ->
      cd_call_method var_builder v "get" [k] [] s = keep v (base_call_method "get") s).
Proof.
  split; [|split].
  - intros var_builder s v k rest nk y Hvalid Hget Hhash Hy.
    rewrite cd_get_present_eval with (nk := nk) (y := y) by assumption.
    repeat split; reflexivity.
  - intros var_builder s v k d nk Hvalid Hget Hhash Hnone.
    rewrite cd_missing_default_eval with (nk := nk) by (auto || assumption).
    repeat split; reflexivity.
  - intros var_builder s v k nk Hvalid Hget Hhash Hnone.
    unfold cd_call_method, keep, missing_with_default, present_for_get.
    cbn -[get_key is_valid_key propagate dict_lookup items_of base_call_method].
    rewrite Hvalid. cbn -[get_key is_valid_key propagate dict_lookup items_of base_call_method].
    unfold cond at 1. rewrite Hget. unfold dict_contains. rewrite Hhash, Hnone.
    cbn -[get_key is_valid_key propagate dict_lookup items_of base_call_method].
    unfold cond at 1. rewrite Hget, Hhash, Hnone. reflexivity.
Qed.

(** ConstDictVariable.call_method, [__contains__]: the arm for a valid key
    calls [self.get_key(args[0])] without [tx], so it raises TypeError for
    every valid key; an invalid key raises Unsupported "NYI - __contains__";
    with no argument [args[0]] raises IndexError.  The state is unchanged. *)
Theorem const_dict_contains :
  (forall var_builder s v k rest kwargs,
      is_valid_key k = true ->
      cd_call_method var_builder v "__contains__" (k :: rest) kwargs s
      = (s, v, RErr (TypeErr "get_key() missing 1 required positional argument: 'arg'")))
  /\ (forall var_builder s v k rest kwargs,
      is_valid_key k = false ->
      cd_call_method var_builder v "__contains__" (k :: rest) kwargs s
      = (s, v, RErr (Unsupported "NYI - __contains__")))
  /\ (forall var_builder s v kwargs,
      cd_call_method var_builder v "__contains__" [] kwargs s = (s, v, RErr IndexErr)).
Proof.
  split; [|split].
  - intros var_builder s v k rest kwargs Hvalid.
    unfold cd_call_method, cond, missing_with_default, present_for_get, pure, keep, arg0_valid.
    cbn -[is_valid_key]. rewrite Hvalid. reflexivity.
  - intros var_builder s v k rest kwargs Hvalid.
    unfold cd_call_method, cond, missing_with_default, present_for_get, pure, keep, arg0_valid.
    cbn -[is_valid_key]. rewrite Hvalid. reflexivity.
  - intros var_builder s v kwargs. reflexivity.
Qed.

(** ConstDictVariable.call_method, [__setitem__] then [__getitem__]: on a
    mutable dict, after [d[k] = x] the lookup of every key not equal to [k]
    is as before, and [d[k]] on the new dict returns a copy of [x]. *)
Theorem setitem_then_getitem :
  forall var_builder s i g m rc c it k x nk,
    is_valid_key k = true -> get_key s k = ROk nk -> hashable nk = true ->
    let v := MkVar i g (Some m) rc (KDict c it) in
    match cd_call_method var_builder v "__setitem__" [k; x] [] s with
    | (s', _, ROk v2) =>
        (forall k', py_eq k' nk = false -> dict_lookup k' (items_of v2) = dict_lookup k' it)
        /\ match cd_call_method var_builder v2 "__getitem__" [k] [] s' with
           | (_, _, ROk r) =>
               kind r = kind x /\ mutable_local r = mutable_local x
               /\ recursively_contains r = recursively_contains x
           | _ => False
           end
    | _ => False
    end.
Proof.
  intros var_builder s i g m rc c it k x nk Hvalid Hget Hhash v. subst v.
  rewrite setitem_mutable_eval with (nk := nk) by assumption. cbv zeta.
  split.
  - intros k' Hk'. cbn [items_of dict_items init_var kind]. apply dict_lookup_set_other, Hk'.
  - rewrite cd_getitem_eval with (nk := nk) (y := x).
    + repeat split; reflexivity.
    + rewrite get_key_nn with (s := s) by reflexivity. exact Hget.
    + exact Hhash.
    + cbn [items_of dict_items init_var kind]. apply dict_lookup_set, py_eq_refl, Hhash.
Qed.

Lemma setitem_then_getitem_witness :
  match cd_call_method ex_builder ex_dict_mut "__setitem__" [ex_key_a; ex_seven] [] ex_state with
  | (s', _, ROk v2) =>
      (forall k', py_eq k' (PStr "a") = false ->
                  dict_lookup k' (items_of v2) = dict_lookup k' [(PStr "b", ex_one)])
      /\ match cd_call_method ex_builder v2 "__getitem__" [ex_key_a] [] s' with
         | (_, _, ROk r) =>
             kind r = kind ex_seven /\ mutable_local r = mutable_local ex_seven
             /\ recursively_contains r = recursively_contains ex_seven
         | _ => False
         end
  | _ => False
  end.
Proof.
  exact (setitem_then_getitem ex_builder ex_state 3 [GTag 3] 30 [] UDict [(PStr "b", ex_one)]
           ex_key_a ex_seven (PStr "a") eq_refl eq_refl eq_refl).
Defined.

(** ConstDictVariable.call_method, [pop] of a present key on a mutable dict
    (whose keys are pairwise different): returns a copy of the stored value,
    and the dict that replaces the old one in the live variables keeps the
    mutable_local, no longer has the key and has every other key unchanged. *)
Theorem pop_present_removes_key :
  forall var_builder s i g m rc c it k rest nk y,
    is_valid_key k = true -> get_key s k = ROk nk -> hashable nk = true ->
    dict_lookup nk it = Some y -> keys_distinct it = true ->
    let v := MkVar i g (Some m) rc (KDict c it) in
    match cd_call_method var_builder v "pop" (k :: rest) [] s with
    | (s', v', ROk r) =>
        v' = v /\ kind r = kind y /\ mutable_local r = mutable_local y
        /\ recursively_contains r = recursively_contains y
        /\ exists v2, live s' = replace_in v v2 (live s) /\ mutable_local v2 = Some m
                      /\ dict_lookup nk (items_of v2) = None
                      /\ (forall k', py_eq k' nk = false ->
                                     dict_lookup k' (items_of v2) = dict_lookup k' it)
    | _ => False
    end.
Proof.
  intros var_builder s i g m rc c it k rest nk y Hvalid Hget Hhash Hy Hd v. subst v.
  rewrite pop_present_mutable_eval with (nk := nk) (y := y) by assumption. cbv zeta.
  refine (conj eq_refl (conj eq_refl (conj eq_refl (conj eq_refl _)))).
  eexists. split; [reflexivity|]. split; [reflexivity|].
  cbn [items_of dict_items init_var kind]. split.
  - apply dict_lookup_remove_same, Hd.
  - intros k' Hk'. apply dict_lookup_remove_other, Hk'.
Qed.

Lemma pop_present_removes_key_witness :
  match cd_call_method ex_builder ex_dict_mut "pop" [ex_key_b] [] ex_state with
  | (s', v', ROk r) =>
      v' = ex_dict_mut /\ kind r = kind ex_one /\ mutable_local r = mutable_local ex_one
      /\ recursively_contains r = recursively_contains ex_one
      /\ exists v2, live s' = replace_in ex_dict_mut v2 (live ex_state) /\ mutable_local v2 = Some 30
                    /\ dict_lookup (PStr "b") (items_of v2) = None
                    /\ (forall k', py_eq k' (PStr "b") = false ->
                                   dict_lookup k' (items_of v2) = dict_lookup k' [(PStr "b", ex_one)])
  | _ => False
  end.
Proof.
  exact (pop_present_removes_key ex_builder ex_state 3 [GTag 3] 30 [] UDict [(PStr "b", ex_one)]
           ex_key_b [] (PStr "b") ex_one eq_refl eq_refl eq_refl eq_refl eq_refl).
Defined.

(** ConstDictVariable.call_method, [update] with a dict argument (whose
    keys are pairwise different) on a mutable dict: the new dict, which
    replaces the old one in the live variables with the same mutable_local,
    maps each key to the argument's value if the argument has the key and to
    the old value otherwise. *)
Theorem update_lookup :
  forall var_builder s i g m rc c it o rest ot,
    dict_items o = Some ot -> keys_distinct ot = true ->
    let v := MkVar i g (Some m) rc (KDict c it) in
    match cd_call_method var_builder v "update" (o :: rest) [] s with
    | (s', v', ROk v2) =>
        v' = v /\ live s' = replace_in v v2 (live s) /\ mutable_local v2 = Some m
        /\ forall k, dict_lookup k (items_of v2)
                     = match dict_lookup k ot with Some x => Some x | None => dict_lookup k it end
    | _ => False
    end.
Proof.
  intros var_builder s i g m rc c it o rest ot Ho Hd v. subst v.
  rewrite update_mutable_eval with (ot := ot) by assumption. cbv zeta.
  refine (conj eq_refl (conj eq_refl (conj eq_refl _))).
  intro k. cbn [items_of dict_items init_var kind]. apply dict_lookup_update, Hd.
Qed.

Lemma update_lookup_witness :
  match cd_call_method ex_builder ex_dict_mut "update" [ex_dict_nested] [] ex_state with
  | (s', v', ROk v2) =>
      v' = ex_dict_mut /\ live s' = replace_in ex_dict_mut v2 (live ex_state)
      /\ mutable_local v2 = Some 30
      /\ forall k, dict_lookup k (items_of v2)
                   = match dict_lookup k [(PStr "a", ex_list)] with
                     | Some x => Some x
                     | None => dict_lookup k [(PStr "b", ex_one)]
                     end
  | _ => False
  end.
Proof.
  exact (update_lookup ex_builder ex_state 3 [GTag 3] 30 [] UDict [(PStr "b", ex_one)]
           ex_dict_nested [] [(PStr "a", ex_list)] eq_refl eq_refl).
Defined.

(** DefaultDictVariable.call_method: [get] and [pop] of a missing key with a
    default return a copy of the default and never call the default factory
    (whatever [call_function] does); [__getitem__] with a key that normalises
    to an unhashable value raises TypeError before any factory call, with the
    state unchanged. *)
Theorem defaultdict_no_factory_call :
  (forall var_builder call_function s v it f name k d nk,
      kind v = KDefaultDict it f -> (name = "pop" \/ name = "get") ->
      is_valid_key k = true -> get_key s k = ROk nk -> hashable nk = true ->
      dict_lookup nk it = None ->
      dd_call_method var_builder call_function v name [k; d] [] s
      = (mkState (S (next_id s)) (live s) (weakrefs s) (nn_modules s) (sys_modules s), v,
         ROk (init_var (next_id s) (guards_union (guards d) (propagate [v; k; d]))
                       (mutable_local d) (Some (recursively_contains d)) (kind d))))
  /\ (forall var_builder call_function s v k rest kwargs nk,
      get_key s k = ROk nk -> hashable nk = false ->
      dd_call_method var_builder call_function v "__getitem__" (k :: rest) kwargs s
      = (s, v, RErr unhashable)).
Proof.
  split.
  - intros var_builder call_function s v it f name k d nk Hk Hname Hvalid Hget Hhash Hnone.
    assert (Hn : String.eqb name "__getitem__" = false)
      by (destruct Hname as [-> | ->]; reflexivity).
    unfold dd_call_method. rewrite Hn.
    apply cd_missing_default_eval with (nk := nk); try assumption.
    unfold items_of, dict_items. rewrite Hk. exact Hnone.
  - intros var_builder call_function s v k rest kwargs nk Hget Hhash.
    unfold dd_call_method, keep. cbn -[get_key propagate dict_lookup items_of].
    rewrite Hget. unfold dict_contains. rewrite Hhash. reflexivity.
Qed.

Lemma dict_lookup_app : forall k l1 l2,
  dict_lookup k (l1 ++ l2)%list = match dict_lookup k l1 with Some x => Some x | None => dict_lookup k l2 end.
Proof.
  intros k l1 l2. induction l1 as [|[k1 v1] r IH]; simpl; [reflexivity|].
  destruct (py_eq k k1); [reflexivity | exact IH].
Qed.

Lemma collect_items_vars : forall bound keys acc s,
  distinct_names keys = true ->
  (forall key, In key keys -> dict_lookup (PStr key) acc = None) ->
  forallb (var_or_none bound) keys = true ->
  collect_items false keys bound acc s = (s, ROk (acc ++ var_fields keys bound)%list).
Proof.
  intros bound keys. induction keys as [|key rest IH]; intros acc s Hd Hacc Hb.
  - simpl. rewrite app_nil_r. reflexivity.
  - simpl in Hd, Hb. apply andb_true_iff in Hd as [Hn Hd]. apply andb_true_iff in Hb as [Hk Hb].
    unfold var_or_none in Hk. cbn [collect_items var_fields].
    destruct (assoc_str key bound) as [[v|x]|]; try discriminate.
    + rewrite dict_set_absent by (apply Hacc; left; reflexivity).
      rewrite IH; [ | exact Hd | | exact Hb].
      * rewrite <- app_assoc. reflexivity.
      * intros key' Hin. rewrite dict_lookup_app, Hacc by (right; exact Hin). simpl.
        destruct (String.eqb key' key) eqn:E; [|reflexivity].
        apply String.eqb_eq in E. subst key'.
        assert (He : existsb (String.eqb key) rest = true)
          by (apply existsb_exists; exists key; split; [exact Hin | apply String.eqb_refl]).
        rewrite He in Hn. discriminate.
    + destruct x; try discriminate. cbn. apply IH; [exact Hd | | exact Hb].
      intros key' Hin. apply Hacc. right. exact Hin.
Qed.

(** DataClassVariable.create: for a schema with pairwise different field
    names, a binding that covers exactly these fields, each bound to a
    variable or defaulted to None, and a number of variable fields other
    than one, the result is a fresh DataClassVariable whose items are the
    variable fields in schema order, the None defaults being dropped. *)
Theorem dataclass_create_items :
  forall cls_name keys bound options s,
    distinct_names keys = true -> same_set (map fst bound) keys = true ->
    forallb (var_or_none bound) keys = true ->
    List.length (var_fields keys bound) <> 1 ->
    dc_create false cls_name keys bound options s
    = (mkState (S (next_id s)) (live s) (weakrefs s) (nn_modules s) (sys_modules s),
       ROk (init_var (next_id s) options None None
                     (KDict (UDataClass cls_name) (var_fields keys bound)))).
Proof.
  intros cls_name keys bound options s Hd Hsame Hb Hlen.
  unfold dc_create. unfold bind at 1. unfold assert_. rewrite Hsame. unfold ret at 1.
  unfold bind at 1. rewrite collect_items_vars by (assumption || (intros; reflexivity)).
  cbn [app]. apply Nat.eqb_neq in Hlen. rewrite Hlen. destruct s; reflexivity.
Qed.

Lemma dataclass_create_items_witness :
  dc_create false "Out" ["a"; "b"; "c"]
            [("a", BVar ex_one); ("b", BLit PNone); ("c", BVar ex_seven)] [] ex_state
  = (mkState 101 [] [] [] [(PStr "alpha", PModule 7)],
     ROk (init_var 100 [] None None
                   (KDict (UDataClass "Out") [(PStr "a", ex_one); (PStr "c", ex_seven)]))).
Proof.
  exact (dataclass_create_items "Out" ["a"; "b"; "c"]
           [("a", BVar ex_one); ("b", BLit PNone); ("c", BVar ex_seven)] [] ex_state
           eq_refl eq_refl eq_refl ltac:(discriminate)).
Defined.

(** DataClassVariable.call_method: [__getitem__] with a string index is a
    dict lookup (copy of the value, or KeyError); with another constant index
    it indexes the tuple of [to_tuple]; with keyword arguments or not
    exactly one positional argument it fails its assertion; [to_tuple] gives
    a fresh tuple of the values; [__setattr__] is ConstDictVariable's
    [__setitem__]. *)
Theorem dataclass_call_method :
  (forall var_builder tuple_call_method s v a0 key y,
      as_python_constant a0 = Some (PStr key) -> dict_lookup (PStr key) (items_of v) = Some y ->
      dcv_call_method var_builder tuple_call_method v "__getitem__" [a0] [] s
      = (mkState (S (next_id s)) (live s) (weakrefs s) (nn_modules s) (sys_modules s), v,
         ROk (init_var (next_id s) (guards_union (guards y) (propagate [v; a0]))
                       (mutable_local y) (Some (recursively_contains y)) (kind y))))
  /\ (forall var_builder tuple_call_method s v a0 key,
      as_python_constant a0 = Some (PStr key) -> dict_lookup (PStr key) (items_of v) = None ->
      dcv_call_method var_builder tuple_call_method v "__getitem__" [a0] [] s = (s, v, RErr KeyErr))
  /\ (forall var_builder tuple_call_method s v a0 c s2 r,
      as_python_constant a0 = Some c -> (forall key, c <> PStr key) ->
      tuple_call_method (init_var (next_id s) (propagate [v]) None None (KTuple (map snd (items_of v))))
                        "__getitem__" [a0] []
                        (mkState (S (next_id s)) (live s) (weakrefs s) (nn_modules s) (sys_modules s))
      = (s2, ROk r) ->
      dcv_call_method var_builder tuple_call_method v "__getitem__" [a0] [] s
      = (mkState (S (next_id s2)) (live s2) (weakrefs s2) (nn_modules s2) (sys_modules s2), v,
         ROk (init_var (next_id s2) (guards_union (guards r) (propagate [v; a0]))
                       (mutable_local r) (Some (recursively_contains r)) (kind r))))
  /\ (forall var_builder tuple_call_method s v args kwargs,
      kwargs <> [] \/ List.length args <> 1 ->
      dcv_call_method var_builder tuple_call_method v "__getitem__" args kwargs s
      = (s, v, RErr AssertErr))
  /\ (forall var_builder tuple_call_method s v,
      dcv_call_method var_builder tuple_call_method v "to_tuple" [] [] s
      = (mkState (S (next_id s)) (live s) (weakrefs s) (nn_modules s) (sys_modules s), v,
         ROk (init_var (next_id s) (propagate [v]) None None (KTuple (map snd (items_of v))))))
  /\ (forall var_builder tuple_call_method s v args kwargs,
      dcv_call_method var_builder tuple_call_method v "__setattr__" args kwargs s
      = cd_call_method var_builder v "__setitem__" args kwargs s).
Proof.
  split; [|split; [|split; [|split; [|split]]]].
  - intros var_builder tcm s v a0 key y Hc Hy.
    unfold dcv_call_method, keep, as_python_constant_m.
    cbn -[as_python_constant dict_lookup items_of propagate]. rewrite Hc.
    unfold dict_getitem. cbn -[dict_lookup items_of propagate]. rewrite Hy.
    destruct s; reflexivity.
  - intros var_builder tcm s v a0 key Hc Hn.
    unfold dcv_call_method, keep, as_python_constant_m.
    cbn -[as_python_constant dict_lookup items_of propagate]. rewrite Hc.
    unfold dict_getitem. cbn -[dict_lookup items_of propagate]. rewrite Hn. reflexivity.
  - intros var_builder tcm s v a0 c s2 r Hc Hnot Htc.
    unfold dcv_call_method, keep, as_python_constant_m.
    cbn -[as_python_constant dict_lookup items_of propagate]. rewrite Hc.
    destruct c; try (exfalso; eapply Hnot; reflexivity);
      unfold dcv_to_tuple; cbn -[dict_lookup items_of propagate init_var];
      unfold bind at 1; rewrite Htc; destruct s2; reflexivity.
  - intros var_builder tcm s v args kwargs H.
    unfold dcv_call_method, keep. cbn -[propagate].
    destruct kwargs as [|kw kwargs].
    + destruct H as [H|H]; [congruence|].
      apply Nat.eqb_neq in H. cbn [is_nil andb]. rewrite H. reflexivity.
    + reflexivity.
  - intros var_builder tcm s v. destruct s; reflexivity.
  - intros var_builder tcm s v args kwargs. reflexivity.
Qed.

(** DataClassVariable.var_getattr: a field present in the items gives a copy
    of its value; an absent field with a literal default (when [include_none]
    is off) gives a fresh constant carrying the variable's guards; a default
    of MISSING fails the assertion.  In every other case (a field absent from
    the items that has no default, or [include_none] on) the lookup ends in
    the base [var_getattr]: an error it raises is passed on with its state,
    and no attribute is ever produced, since the method has no [return] after
    the base call (a normal return of the base would be dropped for [None]). *)
Theorem dataclass_var_getattr :
  (forall var_builder tuple_call_method base_var_getattr include_none defaults s v name y,
      dict_lookup (PStr name) (items_of v) = Some y ->
      match dcv_var_getattr var_builder tuple_call_method base_var_getattr include_none defaults
              v name s with
      | (s', ROk (Some r)) =>
          kind r = kind y /\ mutable_local r = mutable_local y
          /\ recursively_contains r = recursively_contains y
          /\ next_id s' = S (S (next_id s)) /\ live s' = live s
      | _ => False
      end)
  /\ (forall var_builder tuple_call_method base_var_getattr defaults s v name x,
      dict_lookup (PStr name) (items_of v) = None ->
      assoc_str name defaults = Some (Some x) -> is_literal x = true ->
      dcv_var_getattr var_builder tuple_call_method base_var_getattr false defaults v name s
      = (mkState (S (S (next_id s))) (live s) (weakrefs s) (nn_modules s) (sys_modules s),
         ROk (Some (init_var (S (next_id s)) (guards_union [] (guards v)) None (Some [])
                             (KConst x)))))
  /\ (forall var_builder tuple_call_method base_var_getattr defaults s v name,
      dict_lookup (PStr name) (items_of v) = None ->
      assoc_str name defaults = Some None ->
      dcv_var_getattr var_builder tuple_call_method base_var_getattr false defaults v name s
      = (s, RErr AssertErr))
  /\ (forall var_builder tuple_call_method base_var_getattr include_none defaults s v name,
      dict_lookup (PStr name) (items_of v) = None ->
      (include_none = true \/ assoc_str name defaults = None) ->
      match dcv_var_getattr var_builder tuple_call_method base_var_getattr include_none defaults
              v name s with
      | (s', RErr e) => base_var_getattr v name s = (s', RErr e)
      | (s', ROk None) => exists w, base_var_getattr v name s = (s', ROk w)
      | (_, ROk (Some _)) => False
      end).
Proof.
  split; [|split; [|split]].
  - intros vb tcm bga incl defaults s v name y Hy.
    unfold dcv_var_getattr. rewrite Hy. cbn -[dcv_call_method].
    unfold result_of. unfold dcv_call_method, keep, as_python_constant_m.
    cbn -[dict_lookup items_of propagate]. rewrite Hy. cbn. repeat split; reflexivity.
  - intros vb tcm bga defaults s v name x Hn Hd Hl.
    unfold dcv_var_getattr. rewrite Hn, Hd. cbn -[guards_union]. rewrite Hl.
    destruct s; reflexivity.
  - intros vb tcm bga defaults s v name Hn Hd.
    unfold dcv_var_getattr. rewrite Hn, Hd. reflexivity.
  - intros vb tcm bga incl defaults s v name Hn Hcase.
    unfold dcv_var_getattr. rewrite Hn.
    assert (Hc : negb incl && isSome (assoc_str name defaults) = false)
      by (destruct Hcase as [-> | ->]; [reflexivity | apply andb_false_r]).
    cbn [isSome]. rewrite Hc. unfold bind.
    destruct (bga v name s) as [s' [w | e]]; [eexists; reflexivity | reflexivity].
Qed.

Lemma dataclass_var_getattr_witness :
  let v := MkVar 40 [GTag 40] None [] (KDict (UDataClass "Out") [(PStr "a", ex_one)]) in
  let base_var_getattr := fun (_ : Var) (_ : string) => @throw Var NotImplErr in
  dcv_var_getattr ex_builder (fun _ _ _ _ => throw NotImplErr) base_var_getattr false
                  [("a", None); ("c", Some (PInt 3))] v "b" ex_state
  = (ex_state, RErr NotImplErr)
  /\ match dcv_var_getattr ex_builder (fun _ _ _ _ => throw NotImplErr) base_var_getattr false
                           [("a", None); ("c", Some (PInt 3))] v "b" ex_state with
     | (s', RErr e) => base_var_getattr v "b" ex_state = (s', RErr e)
     | (s', ROk None) => exists w, base_var_getattr v "b" ex_state = (s', ROk w)
     | (_, ROk (Some _)) => False
     end.
Proof.
  split; [reflexivity|].
  exact (proj2 (proj2 (proj2 dataclass_var_getattr)) ex_builder (fun _ _ _ _ => throw NotImplErr)
           (fun _ _ => throw NotImplErr) false [("a", None); ("c", Some (PInt 3))] ex_state
           (MkVar 40 [GTag 40] None [] (KDict (UDataClass "Out") [(PStr "a", ex_one)])) "b"
           eq_refl (or_intror eq_refl)).
Defined.

Lemma keys_distinct_app_lookup : forall acc k v r,
  keys_distinct (acc ++ (k, v) :: r) = true -> dict_lookup k acc = None.
Proof.
  induction acc as [|[k1 v1] acc IH]; intros k v r Hd; simpl; [reflexivity|].
  simpl in Hd. apply andb_true_iff in Hd as [Hn Hd].
  destruct (py_eq k k1) eqn:E; [|exact (IH k v r Hd)].
  exfalso. rewrite dict_lookup_app in Hn.
  destruct (dict_lookup k1 acc); [discriminate|].
  simpl in Hn. rewrite py_eq_sym, E in Hn. discriminate.
Qed.

Lemma cdv_items_vars : forall it acc s,
  keys_distinct (acc ++ it) = true ->
  cdv_items (map (fun kv => (fst kv, BVar (snd kv))) it) acc s = (s, ROk (acc ++ it)%list).
Proof.
  induction it as [|[k v] r IH]; intros acc s Hd.
  - simpl. rewrite app_nil_r. reflexivity.
  - cbn [map fst snd cdv_items].
    rewrite dict_set_absent by exact (keys_distinct_app_lookup acc k v r Hd).
    rewrite IH; [rewrite <- app_assoc; reflexivity|].
    rewrite <- app_assoc. exact Hd.
Qed.

Lemma cdv_items_nonliteral : forall pre key x rest items s,
  forallb bound_ok pre = true -> is_literal x = false ->
  exists s',
    cdv_items (map (fun kv => (PStr (fst kv), snd kv)) (pre ++ (key, BLit x) :: rest)%list)
              items s
    = (s', RErr (Unsupported "expect VariableTracker or ConstantVariable.is_literal")).
Proof.
  induction pre as [|[k b] pre IH]; intros key x rest items s Hpre Hx.
  - cbn. rewrite Hx. eexists; reflexivity.
  - cbn [forallb] in Hpre. apply andb_true_iff in Hpre as [Hb Hpre].
    unfold bound_ok in Hb. cbn [snd] in Hb.
    destruct b as [v | y]; cbn [app map fst snd cdv_items].
    + apply IH; assumption.
    + rewrite Hb. unfold bind at 1. rewrite new_var_spec. apply IH; assumption.
Qed.

(** CustomizedDictVariable.create: when one of [__init__], [__post_init__],
    [__setattr__], [__setitem__] of the class is not callable the assertion
    fails before anything is built.  Otherwise, without arguments the result
    is a fresh empty mapping; with a single dict argument (keys pairwise
    different) its items are the argument's items in order; any other call of
    a non-dataclass raises Unsupported; and for a dataclass, a bound argument
    that is neither a variable nor a literal raises Unsupported, wherever it
    stands in the binding, provided the arguments before it are accepted. *)
Theorem customized_dict_create :
  (forall user_cls cls_attrs args kwargs is_dataclass bound options s,
      cdv_attrs_callable cls_attrs = false ->
      cdv_create user_cls cls_attrs args kwargs is_dataclass bound options s
      = (s, RErr AssertErr))
  /\ (forall user_cls cls_attrs is_dataclass bound options s,
      cdv_attrs_callable cls_attrs = true ->
      cdv_create user_cls cls_attrs [] [] is_dataclass bound options s
      = (mkState (S (next_id s)) (live s) (weakrefs s) (nn_modules s) (sys_modules s),
         ROk (init_var (next_id s) options None None (KDict user_cls []))))
  /\ (forall user_cls cls_attrs a0 it bound options s,
      cdv_attrs_callable cls_attrs = true ->
      dict_items a0 = Some it -> keys_distinct it = true ->
      cdv_create user_cls cls_attrs [a0] [] false bound options s
      = (mkState (S (next_id s)) (live s) (weakrefs s) (nn_modules s) (sys_modules s),
         ROk (init_var (next_id s) options None None (KDict user_cls it))))
  /\ (forall user_cls cls_attrs args kwargs bound options s,
      cdv_attrs_callable cls_attrs = true ->
      is_nil args && is_nil kwargs = false ->
      (forall a0, args = [a0] -> kwargs = [] -> dict_items a0 = None) ->
      cdv_create user_cls cls_attrs args kwargs false bound options s
      = (s, RErr (Unsupported "custome dict init with args/kwargs unimplemented")))
  /\ (forall user_cls cls_attrs args kwargs pre key x rest options s,
      cdv_attrs_callable cls_attrs = true ->
      is_nil args && is_nil kwargs = false ->
      forallb bound_ok pre = true -> is_literal x = false ->
      exists s',
        cdv_create user_cls cls_attrs args kwargs true (pre ++ (key, BLit x) :: rest)%list
                   options s
        = (s', RErr (Unsupported "expect VariableTracker or ConstantVariable.is_literal"))).
Proof.
  split; [|split; [|split; [|split]]].
  - intros user_cls cls_attrs args kwargs is_dataclass bound options s Hc.
    unfold cdv_create, assert_. rewrite Hc. reflexivity.
  - intros user_cls cls_attrs is_dataclass bound options s Hc.
    unfold cdv_create, assert_. rewrite Hc. destruct s; reflexivity.
  - intros user_cls cls_attrs a0 it bound options s Hc Ha Hd.
    unfold cdv_create, assert_. rewrite Hc. unfold bind at 1, ret at 1.
    unfold cdv_raw_items. cbn [is_nil andb]. rewrite Ha.
    unfold bind at 1, lift. unfold bind at 1. rewrite cdv_items_vars by exact Hd.
    destruct s; reflexivity.
  - intros user_cls cls_attrs args kwargs bound options s Hc Hne Hnd.
    unfold cdv_create, assert_. rewrite Hc. unfold bind at 1, ret at 1.
    unfold cdv_raw_items. rewrite Hne.
    destruct args as [|a0 [|a1 args]]; destruct kwargs; try reflexivity.
    rewrite (Hnd a0 eq_refl eq_refl). reflexivity.
  - intros user_cls cls_attrs args kwargs pre key x rest options s Hc Hne Hpre Hx.
    unfold cdv_create, assert_. rewrite Hc. unfold bind at 1, ret at 1.
    unfold cdv_raw_items. rewrite Hne. unfold bind at 1, lift. unfold bind at 1.
    destruct (cdv_items_nonliteral pre key x rest [] s Hpre Hx) as [s' Hs'].
    rewrite Hs'. eexists; reflexivity.
Qed.

Lemma customized_dict_create_witness :
  forallb bound_ok [("a", BVar ex_one); ("b", BLit (PInt 3))] = true
  /\ is_literal (PModule 7) = false
  /\ exists s',
       cdv_create UDict [("__init__", true)] [ex_one] [] true
                  ([("a", BVar ex_one); ("b", BLit (PInt 3))] ++ ("c", BLit (PModule 7)) :: [])%list
                  [] ex_state
       = (s', RErr (Unsupported "expect VariableTracker or ConstantVariable.is_literal")).
Proof.
  split; [reflexivity | split; [reflexivity |]].
  exact (proj2 (proj2 (proj2 (proj2 customized_dict_create))) UDict [("__init__", true)]
           [ex_one] [] [("a", BVar ex_one); ("b", BLit (PInt 3))] "c" (PModule 7) [] [] ex_state
           eq_refl eq_refl eq_refl eq_refl).
Defined.

Lemma bind_params_err : forall ps pos kw e,
  bind_params ps pos kw = RErr e -> exists m, e = TypeErr m.
Proof.
  induction ps as [|[p hd] ps IH]; intros pos kw e H; simpl in H.
  - destruct pos, kw; inversion H; eauto.
  - destruct pos as [|a pos'].
    + destruct (assoc_str p kw).
      * destruct (bind_params ps [] _) eqn:E; inversion H; subst; eauto.
      * destruct hd; [|inversion H; eauto].
        destruct (bind_params ps [] kw) eqn:E; inversion H; subst; eauto.
    + destruct (isSome (assoc_str p kw)); [inversion H; eauto|].
      destruct (bind_params ps pos' kw) eqn:E; inversion H; subst; eauto.
Qed.

Lemma sm_bound_type_error : forall ps args kwargs s (k : list (option Var) -> M Var),
  (forall b, exists m, k b s = (s, RErr (TypeErr m))) ->
  exists m, (b <- lift (bind_params ps args kwargs) ;; k b) s = (s, RErr (TypeErr m)).
Proof.
  intros ps args kwargs s k Hk. unfold bind at 1, lift.
  destruct (bind_params ps args kwargs) as [b|e] eqn:E.
  - apply Hk.
  - destruct (bind_params_err _ _ _ _ E) as [m ->]. eauto.
Qed.

(** PythonSysModulesVariable.call_method: [__getitem__], [get] and
    [__contains__] raise TypeError with the state unchanged for every
    argument list: a call that binds to the method's signature reaches
    [_contains_helper], which calls [get_key] without [tx], and a call that
    does not bind raises TypeError in the binding. *)
Theorem sys_modules_dispatch_type_error :
  forall var_builder real_dict_call_method self name args kwargs s,
    name = "__getitem__" \/ name = "get" \/ name = "__contains__" ->
    exists msg,
      sm_call_method var_builder real_dict_call_method self name args kwargs s
      = (s, RErr (TypeErr msg)).
Proof.
  intros vb rd self name args kwargs s Hn.
  destruct Hn as [-> | [-> | ->]]; cbn [sm_call_method String.eqb Ascii.eqb Bool.eqb];
    apply sm_bound_type_error; intros b;
    repeat (match goal with
            | |- exists _, match ?x with _ => _ end _ = _ => destruct x
            end); solve [eauto | eexists; reflexivity].
Qed.

Lemma wrap_fields_keys : forall wrap_attr incl attrs keys items excl s,
  (forall key val s, exists s' w, wrap_attr key val s = (s', ROk w)) ->
  distinct_names keys = true ->
  (forall key, In key keys -> dict_lookup (PStr key) items = None) ->
  exists s' new excl',
    wrap_fields wrap_attr incl keys attrs items excl s = (s', ROk ((items ++ new)%list, excl'))
    /\ map fst new = map PStr (filter (kept_field incl attrs) keys).
Proof.
  intros wrap_attr incl attrs keys. induction keys as [|key rest IH];
    intros items excl s Htot Hd Hacc.
  - exists s, [], excl. rewrite app_nil_r. split; reflexivity.
  - simpl in Hd. apply andb_true_iff in Hd as [Hn Hd].
    assert (Hrest : forall key', In key' rest -> dict_lookup (PStr key') items = None)
      by (intros key' Hin; apply Hacc; right; exact Hin).
    cbn [wrap_fields filter]. unfold kept_field at 1.
    destruct (assoc_str key attrs) as [val|].
    + destruct (Htot key val s) as [s1 [w Hw]].
      unfold bind at 1. rewrite Hw.
      assert (Hkeep : negb (match val with PNone => true | _ => false end) || incl
                      = match val with PNone => incl | _ => true end)
        by (destruct val; reflexivity).
      rewrite Hkeep.
      destruct (match val with PNone => incl | _ => true end).
      * rewrite dict_set_absent by (apply Hacc; left; reflexivity).
        destruct (IH (items ++ [(PStr key, w)])%list excl s1 Htot Hd) as [s' [new [excl' [Hr Hm]]]].
        { intros key' Hin. rewrite dict_lookup_app, Hrest by exact Hin. simpl.
          destruct (String.eqb key' key) eqn:E; [|reflexivity].
          apply String.eqb_eq in E. subst key'.
          assert (He : existsb (String.eqb key) rest = true)
            by (apply existsb_exists; exists key; split; [exact Hin | apply String.eqb_refl]).
          rewrite He in Hn. discriminate. }
        exists s', ((PStr key, w) :: new), excl'. rewrite Hr, <- app_assoc.
        split; [reflexivity | cbn [map fst]; rewrite Hm; reflexivity].
      * exact (IH items (excl ++ [w])%list s1 Htot Hd Hrest).
    + exact (IH items excl s Htot Hd Hrest).
Qed.

(** DataClassVariable.wrap: when the builder of the field values never fails
    and the field names are pairwise different, the keys of the wrapped
    dataclass are the fields the object has, in schema order, dropping those
    whose value is None unless [include_none] is set. *)
Theorem dataclass_wrap_keys :
  forall wrap_attr include_none cls_name keys attrs s,
    (forall key val s, exists s' w, wrap_attr key val s = (s', ROk w)) ->
    distinct_names keys = true ->
    exists s' r items,
      dcv_wrap wrap_attr include_none cls_name keys attrs s = (s', ROk r)
      /\ kind r = KDict (UDataClass cls_name) items
      /\ map fst items = map PStr (filter (kept_field include_none attrs) keys).
Proof.
  intros wrap_attr incl cls_name keys attrs s Htot Hd.
  destruct (wrap_fields_keys wrap_attr incl attrs keys [] [] s Htot Hd)
    as [s' [new [excl' [Hr Hm]]]]; [intros; reflexivity|].
  unfold dcv_wrap, bind at 1. rewrite Hr. cbn [app].
  eexists _, _, new. split; [reflexivity | split; [reflexivity | exact Hm]].
Qed.

Lemma dataclass_wrap_keys_witness :
  distinct_names ["a"; "b"; "c"; "d"] = true
  /\ exists s' r items,
      dcv_wrap (fun _ => ex_builder) false "Out" ["a"; "b"; "c"; "d"]
               [("a", PInt 1); ("b", PNone); ("d", PStr "x")] ex_state = (s', ROk r)
      /\ kind r = KDict (UDataClass "Out") items
      /\ map fst items
         = map PStr (filter (kept_field false [("a", PInt 1); ("b", PNone); ("d", PStr "x")])
                            ["a"; "b"; "c"; "d"]).
Proof.
  assert (Htot : forall val s, exists s' w, ex_builder val s = (s', ROk w))
    by (intros; eexists _, _; reflexivity).
  split; [reflexivity |].
  apply (dataclass_wrap_keys (fun _ => ex_builder) false "Out" ["a"; "b"; "c"; "d"]
           [("a", PInt 1); ("b", PNone); ("d", PStr "x")] ex_state).
  - intros _; exact Htot.
  - reflexivity.
Defined.

Lemma sys_modules_dispatch_type_error_witness :
  exists msg,
    sm_call_method ex_builder (fun _ _ _ _ => throw KeyErr) ex_sys_modules_var "get"
                   [ex_key_beta] [] ex_state
    = (ex_state, RErr (TypeErr msg)).
Proof.
  apply (sys_modules_dispatch_type_error ex_builder (fun _ _ _ _ => throw KeyErr)
           ex_sys_modules_var "get" [ex_key_beta] [] ex_state).
  right; left; reflexivity.
Defined.
